(** * Home-Security-System: the motion detector and its notifier

    A shallow embedding of [src/motion_detector]: [config.py] (the settings
    and their validation), [notifier.py] (cooldown gate, e-mail assembly and
    delivery), [camera.py] (contour thresholding, overlay drawing and the
    capture loop) and [__init__.py] (the program that wires them together),
    followed by the properties established about them.

    Conventions.
    - Python [int] is [Z]; [str] is [string]; [Optional[T]] is [option T].
    - A [datetime] is the number of microseconds since a fixed origin (the
      resolution of [datetime]); [total_seconds()] is the exact rational
      number of seconds (see [cooldown_compares_exactly] for the settings
      where this is what the double of Python gives), and contour areas are
      exact rationals as well.
    - numpy arrays live in a store ([gmap loc image]); a Python variable
      holding an array is a location, so that aliasing and drawing in place
      are visible.
    - OpenCV, the SMTP server, the wall clock and the keyboard are outside the
      repository: OpenCV is an interface ([OpenCV]), the others are inputs
      recorded in the [World]. *)

From Stdlib Require Import ZArith QArith Qround String Ascii List Lia.
From stdpp Require Import base option list gmap strings pretty.

Local Open Scope string_scope.
Local Open Scope list_scope.
Local Open Scope Z_scope.

(** ** config.py *)

Module Config.

(** The class attributes of [Config], read once from the process
    environment when the module is imported. *)
Record t := mk {
  CAMERA_INDEX : Z;
  MOTION_THRESHOLD : Q;
  MIN_CONTOUR_AREA : Z;
  NOTIFICATION_ENABLED : bool;
  EMAIL_ENABLED : bool;
  SMTP_SERVER : string;
  SMTP_PORT : Z;
  EMAIL_FROM : string;
  EMAIL_TO : string;
  EMAIL_PASSWORD : string;
  NOTIFICATION_COOLDOWN_SECONDS : Z
}.

(** Truthiness of a [str]: only the empty string is falsy. *)
Definition truthy_str (s : string) : bool :=
  match s with
  | EmptyString => false
  | String _ _ => true
  end.

Definition err_from : string :=
  "EMAIL_FROM is required when email notifications are enabled".
Definition err_to : string :=
  "EMAIL_TO is required when email notifications are enabled".
Definition err_password : string :=
  "EMAIL_PASSWORD is required when email notifications are enabled".

(** [Config.validate]: three independent [if]s, each appending to
    [errors]. *)
Definition validate (cls : t) : list string :=
  let errors : list string := [] in
  if EMAIL_ENABLED cls && NOTIFICATION_ENABLED cls then
    let errors :=
      if negb (truthy_str (EMAIL_FROM cls)) then errors ++ [err_from] else errors in
    let errors :=
      if negb (truthy_str (EMAIL_TO cls)) then errors ++ [err_to] else errors in
    let errors :=
      if negb (truthy_str (EMAIL_PASSWORD cls)) then errors ++ [err_password] else errors in
    errors
  else errors.

End Config.

(** *** The switches read from the environment

    [os.getenv(name, "true").lower() == "true"], as in the class attributes
    [NOTIFICATION_ENABLED] and [EMAIL_ENABLED].  The environment is a finite
    map from names to values; values are byte strings, and only the letters
    [A] to [Z] have a lower-case form that can occur in ["true"]. *)

Definition lower_char (c : ascii) : ascii :=
  let n := nat_of_ascii c in
  if ((65 <=? n) && (n <=? 90))%nat then ascii_of_nat (n + 32) else c.

Fixpoint lower (s : string) : string :=
  match s with
  | EmptyString => EmptyString
  | String c s => String (lower_char c) (lower s)
  end.

(** [os.getenv(name, default)]. *)
Definition getenv (env : gmap string string) (name default : string) : string :=
  match env !! name with
  | Some v => v
  | None => default
  end.

Definition env_flag (env : gmap string string) (name : string) : bool :=
  String.eqb (lower (getenv env name "true")) "true".

(** ** The outside world *)

(** A [datetime], in microseconds. *)
Definition datetime := Z.

(** [timedelta.total_seconds()]. *)
Definition total_seconds (delta : Z) : Q := delta # 1000000.

(** [x < y] and [x > y] on exact rationals. *)
Definition Qltb (x y : Q) : bool :=
  match (x ?= y)%Q with Lt => true | _ => false end.
Definition Qgtb (x y : Q) : bool :=
  match (x ?= y)%Q with Gt => true | _ => false end.

(** A location of the store of numpy arrays. *)
Definition loc := positive.

Definition colour : Type := Z * Z * Z.
Definition point : Type := Z * Z.

Inductive morph_op := MORPH_CLOSE | MORPH_OPEN.

(** The part of OpenCV that [camera.py] and [notifier.py] call.  Functions
    that draw on their first argument in place ([rectangle], [drawContours],
    [putText]) are given as the new contents of that array; [imencode] is
    [None] when OpenCV raises. *)
Class OpenCV := {
  image : Type;
  subtractor : Type;
  contour : Type;
  createBackgroundSubtractorMOG2 : Z -> Z -> bool -> subtractor;
  subtractor_apply : subtractor -> image -> subtractor * image;
  getStructuringElement_ellipse : Z * Z -> image;
  morphologyEx : image -> morph_op -> image -> image;
  GaussianBlur : image -> Z * Z -> Z -> image;
  findContours_external_simple : image -> list contour;
  contourArea : contour -> Q;
  boundingRect : contour -> Z * Z * Z * Z;
  rectangle : image -> point -> point -> colour -> Z -> image;
  drawContours : image -> list contour -> Z -> colour -> Z -> image;
  addWeighted : image -> Q -> image -> Q -> Q -> image;
  putText : image -> string -> point -> Q -> colour -> Z -> image;
  imencode_jpg : image -> Z -> option (list Byte.byte)
}.

(** The steps of one SMTP session, in the order [send_email_notification]
    performs them. *)
Inductive smtp_step := Connect | StartTLS | Login | SendMessage | Quit.

Global Instance smtp_step_eq_dec : EqDecision smtp_step.
Proof. solve_decision. Defined.

(** Exceptions raised by the libraries; all are subclasses of [Exception]. *)
Inductive exn :=
| cv2_error
| TypeError
| SMTPException (s : smtp_step).

Definition str_exn (e : exn) : string :=
  match e with
  | cv2_error => "cv2.error"
  | TypeError => "Could not guess image MIME subtype"
  | SMTPException _ => "SMTP error"
  end.

(** A MIME part and an assembled message. *)
Inductive mime_part :=
| MIMEText (body subtype : string)
| MIMEImage (data : list Byte.byte) (filename : string).

Record message := mk_message {
  msg_from : string;
  msg_to : string;
  msg_subject : string;
  msg_parts : list mime_part
}.

Definition attach (msg : message) (p : mime_part) : message :=
  mk_message (msg_from msg) (msg_to msg) (msg_subject msg) (msg_parts msg ++ [p]).

(** The fields of a [NotificationManager]. *)
Record NotificationManager := mk_notifier {
  last_notification_time : option datetime
}.

Section World.
Context `{cv : OpenCV}.

(** Everything the program reads from or writes to outside its own
    variables.  [wall_clock n] is what the [n]-th call of [datetime.now()]
    returns, [network n] the step at which the [n]-th SMTP session raises
    ([None]: no step raises), [keys] the pending results of [waitKey],
    [camera_present i] whether device [i] opens.  [notifier] is the one
    [NotificationManager] that [main] creates and its callback closes
    over. *)
Record World := mk_world {
  heap : gmap loc image;
  wall_clock : nat -> datetime;
  clock_reads : nat;
  network : nat -> option smtp_step;
  sessions : nat;
  keys : list Z;
  camera_present : Z -> bool;
  strftime : datetime -> string -> string;
  image_subtype_known : list Byte.byte -> bool;
  stdout : list string;
  outbox : list message;
  screen : list (string * image);
  notifier : NotificationManager
}.

Inductive outcome (A : Type) :=
| Ret (a : A)
| Raise (e : exn).
Global Arguments Ret {A} a.
Global Arguments Raise {A} e.

(** Computations: a state transformer on the [World] that returns or
    raises. *)
Definition M (A : Type) : Type := World -> outcome A * World.

Global Instance M_ret : MRet M := fun A a w => (Ret a, w).
Global Instance M_bind : MBind M := fun A B f m w =>
  match m w with
  | (Ret a, w') => f a w'
  | (Raise e, w') => (Raise e, w')
  end.

Definition raise {A} (e : exn) : M A := fun w => (Raise e, w).

(** [try: m except Exception as e: h e]. *)
Definition try_except {A} (m : M A) (h : exn -> M A) : M A := fun w =>
  match m w with
  | (Ret a, w') => (Ret a, w')
  | (Raise e, w') => h e w'
  end.

Definition gets {A} (f : World -> A) : M A := fun w => (Ret (f w), w).
Definition modify (f : World -> World) : M unit := fun w => (Ret tt, f w).

Definition set_heap (h : gmap loc image) (w : World) : World :=
  mk_world h (wall_clock w) (clock_reads w) (network w) (sessions w) (keys w)
    (camera_present w) (strftime w) (image_subtype_known w) (stdout w)
    (outbox w) (screen w) (notifier w).
Definition set_clock_reads (n : nat) (w : World) : World :=
  mk_world (heap w) (wall_clock w) n (network w) (sessions w) (keys w)
    (camera_present w) (strftime w) (image_subtype_known w) (stdout w)
    (outbox w) (screen w) (notifier w).
Definition set_sessions (n : nat) (w : World) : World :=
  mk_world (heap w) (wall_clock w) (clock_reads w) (network w) n (keys w)
    (camera_present w) (strftime w) (image_subtype_known w) (stdout w)
    (outbox w) (screen w) (notifier w).
Definition set_keys (ks : list Z) (w : World) : World :=
  mk_world (heap w) (wall_clock w) (clock_reads w) (network w) (sessions w) ks
    (camera_present w) (strftime w) (image_subtype_known w) (stdout w)
    (outbox w) (screen w) (notifier w).
Definition set_stdout (out : list string) (w : World) : World :=
  mk_world (heap w) (wall_clock w) (clock_reads w) (network w) (sessions w)
    (keys w) (camera_present w) (strftime w) (image_subtype_known w) out
    (outbox w) (screen w) (notifier w).
Definition set_outbox (box : list message) (w : World) : World :=
  mk_world (heap w) (wall_clock w) (clock_reads w) (network w) (sessions w)
    (keys w) (camera_present w) (strftime w) (image_subtype_known w)
    (stdout w) box (screen w) (notifier w).
Definition set_screen (scr : list (string * image)) (w : World) : World :=
  mk_world (heap w) (wall_clock w) (clock_reads w) (network w) (sessions w)
    (keys w) (camera_present w) (strftime w) (image_subtype_known w)
    (stdout w) (outbox w) scr (notifier w).
Definition set_notifier (n : NotificationManager) (w : World) : World :=
  mk_world (heap w) (wall_clock w) (clock_reads w) (network w) (sessions w)
    (keys w) (camera_present w) (strftime w) (image_subtype_known w)
    (stdout w) (outbox w) (screen w) n.

(** [datetime.now()]. *)
Definition datetime_now : M datetime := fun w =>
  (Ret (wall_clock w (clock_reads w)), set_clock_reads (S (clock_reads w)) w).

(** [print(s)]. *)
Definition print (s : string) : M unit :=
  modify (fun w => set_stdout (stdout w ++ [s]) w).

(** Reading an array; a location that holds no array is an invalid
    argument for OpenCV. *)
Definition load (l : loc) : M image := fun w =>
  match heap w !! l with
  | Some img => (Ret img, w)
  | None => (Raise cv2_error, w)
  end.

(** Writing an array in place. *)
Definition update (l : loc) (f : image -> image) : M unit :=
  img ← load l;
  modify (fun w => set_heap (<[l := f img]> (heap w)) w).

(** A new array. *)
Definition alloc (img : image) : M loc := fun w =>
  let l := fresh (dom (heap w)) in
  (Ret l, set_heap (<[l := img]> (heap w)) w).

(** [frame.copy()]. *)
Definition copy (l : loc) : M loc :=
  img ← load l; alloc img.

(** [cv2.imshow(name, frame)]. *)
Definition imshow (name : string) (l : loc) : M unit :=
  img ← load l;
  modify (fun w => set_screen (screen w ++ [(name, img)]) w).

(** [cv2.waitKey(1)]: the next key code, [-1] when no key was pressed. *)
Definition waitKey : M Z := fun w =>
  match keys w with
  | [] => (Ret (-1), w)
  | k :: ks => (Ret k, set_keys ks w)
  end.

End World.

(** ** notifier.py *)

Section Notifier.
Context `{cv : OpenCV}.
Variable cfg : Config.t.

Definition nl : string := String "010"%char EmptyString.

(** [NotificationManager.__init__]. *)
Definition NotificationManager_init : NotificationManager :=
  mk_notifier None.

(** [_is_cooldown_active].  A [datetime] is always truthy, so the first
    test only recognises [None]. *)
Definition _is_cooldown_active : M bool :=
  self ← gets notifier;
  match last_notification_time self with
  | None => mret false
  | Some last =>
      now ← datetime_now;
      let elapsed := total_seconds (now - last) in
      mret (Qltb elapsed (inject_Z (Config.NOTIFICATION_COOLDOWN_SECONDS cfg)))
  end.

(** [smtplib.SMTP(...)], [starttls], [login], [send_message], [quit]: the
    session raises at the step the network dictates; the message reaches
    the [outbox] when [send_message] returns. *)
Definition smtp_do (fails_at : option smtp_step) (s : smtp_step) : M unit :=
  if decide (fails_at = Some s) then raise (SMTPException s) else mret tt.

Definition smtp_session (msg : message) : M unit :=
  fails_at ← gets (fun w => network w (sessions w));
  modify (fun w => set_sessions (S (sessions w)) w);;
  smtp_do fails_at Connect;;
  smtp_do fails_at StartTLS;;
  smtp_do fails_at Login;;
  smtp_do fails_at SendMessage;;
  modify (fun w => set_outbox (outbox w ++ [msg]) w);;
  smtp_do fails_at Quit.

(** The body of the inner [try]: encode the frame as JPEG (quality 85),
    wrap it in a [MIMEImage], name it and attach it. *)
Definition attach_frame (msg : message) (frame : loc) : M message :=
  img ← load frame;
  match imencode_jpg img 85 with
  | None => raise cv2_error
  | Some image_bytes =>
      known ← gets (fun w => image_subtype_known w image_bytes);
      if known : bool then
        now ← datetime_now;
        fmt ← gets (fun w => strftime w now "%Y%m%d_%H%M%S");
        mret (attach msg (MIMEImage image_bytes ("motion_" +:+ fmt +:+ ".jpg")))
      else raise TypeError
  end.

Definition email_body (time : string) : string :=
  nl +:+ "Motion has been detected by your security camera!" +:+ nl +:+ nl
  +:+ "Time: " +:+ time +:+ nl
  +:+ "Camera Index: " +:+ pretty (Config.CAMERA_INDEX cfg) +:+ nl +:+ nl
  +:+ "Please check your camera feed for details." +:+ nl
  +:+ "            ".

(** The [if frame is not None] block with its own [try]: a failure to
    encode or attach is printed as a warning and the message is kept as it
    was. *)
Definition attach_or_warn (msg : message) (frame : option loc) : M message :=
  match frame with
  | Some frame =>
      try_except (attach_frame msg frame)
        (fun e =>
           print ("Warning: Could not attach image to email: " +:+ str_exn e);;
           mret msg)
  | None => mret msg
  end.

(** The body of the outer [try] of [send_email_notification]. *)
Definition send_body (frame : option loc) : M bool :=
  now ← datetime_now;
  subject_time ← gets (fun w => strftime w now "%Y-%m-%d %H:%M:%S");
  let msg := mk_message (Config.EMAIL_FROM cfg) (Config.EMAIL_TO cfg)
               ("Motion Detected - " +:+ subject_time) [] in
  now ← datetime_now;
  body_time ← gets (fun w => strftime w now "%Y-%m-%d %H:%M:%S");
  let msg := attach msg (MIMEText (email_body body_time) "plain") in
  msg ← attach_or_warn msg frame;
  smtp_session msg;;
  now ← datetime_now;
  modify (set_notifier (mk_notifier (Some now)));;
  mret true.

(** [send_email_notification]. *)
Definition send_email_notification (frame : option loc) : M bool :=
  if negb (Config.EMAIL_ENABLED cfg) || negb (Config.NOTIFICATION_ENABLED cfg)
  then mret false
  else
    active ← _is_cooldown_active;
    if active : bool then mret false
    else
      try_except (send_body frame)
        (fun e =>
           print ("Error sending email notification: " +:+ str_exn e);;
           mret false).

(** [notify]. *)
Definition notify (frame : option loc) : M bool :=
  if negb (Config.NOTIFICATION_ENABLED cfg) then mret false
  else
    let success := false in
    success ← (if Config.EMAIL_ENABLED cfg
               then r ← send_email_notification frame; mret (r || success)
               else mret success);
    mret success.

End Notifier.

(** ** camera.py *)

Section Camera.
Context `{cv : OpenCV}.
Variable cfg : Config.t.

(** A [cv2.VideoCapture]: whether the device is open. *)
Record VideoCapture := mk_capture { isOpened : bool }.

(** The fields of a [MotionDetector]. *)
Record MotionDetector := mk_detector {
  camera_index : Z;
  on_motion_detected : option (loc -> M unit);
  cap : option VideoCapture;
  background_subtractor : subtractor;
  frame_count : Z;
  running : bool
}.

(** Python's [a or b] for an optional integer [a]: [None] and [0] are
    falsy. *)
Definition or_int (a : option Z) (b : Z) : Z :=
  match a with
  | None => b
  | Some n => if decide (n = 0) then b else n
  end.

(** [MotionDetector.__init__]. *)
Definition MotionDetector_init (camera_index : option Z)
    (on_motion_detected : option (loc -> M unit)) : MotionDetector :=
  mk_detector (or_int camera_index (Config.CAMERA_INDEX cfg))
    on_motion_detected None
    (createBackgroundSubtractorMOG2 500 50 true) 0 false.

Definition set_cap (c : option VideoCapture) (self : MotionDetector) :=
  mk_detector (camera_index self) (on_motion_detected self) c
    (background_subtractor self) (frame_count self) (running self).
Definition set_background_subtractor (b : subtractor) (self : MotionDetector) :=
  mk_detector (camera_index self) (on_motion_detected self) (cap self)
    b (frame_count self) (running self).
Definition set_frame_count (n : Z) (self : MotionDetector) :=
  mk_detector (camera_index self) (on_motion_detected self) (cap self)
    (background_subtractor self) n (running self).
Definition set_running (b : bool) (self : MotionDetector) :=
  mk_detector (camera_index self) (on_motion_detected self) (cap self)
    (background_subtractor self) (frame_count self) b.

(** [start]. *)
Definition start (self : MotionDetector) : M (bool * MotionDetector) :=
  opened ← gets (fun w => camera_present w (camera_index self));
  let self := set_cap (Some (mk_capture opened)) self in
  if negb opened then
    print ("Error: Could not open camera " +:+ pretty (camera_index self));;
    mret (false, self)
  else
    mret (true, set_running true self).

(** [stop]. *)
Definition stop (self : MotionDetector) : MotionDetector :=
  let self := set_running false self in
  match cap self with
  | Some _ => set_cap (Some (mk_capture false)) self
  | None => self
  end.

Definition green : colour := (0, 255, 0).

(** [area > Config.MIN_CONTOUR_AREA]. *)
Definition significant (c : contour) : bool :=
  Qgtb (contourArea c) (inject_Z (Config.MIN_CONTOUR_AREA cfg)).

(** The [for contour in contours] loop of [_detect_motion]; the pair is
    [(motion_detected, motion_areas)].  The bounding box is drawn on
    [frame] itself. *)
Fixpoint scan_contours (frame : loc) (contours : list contour)
    (st : bool * list contour) : M (bool * list contour) :=
  match contours with
  | [] => mret st
  | c :: rest =>
      if significant c then
        let '(x, y, w, h) := boundingRect c in
        update frame (fun f => rectangle f (x, y) (x + w, y + h) green 2);;
        scan_contours frame rest (true, snd st ++ [c])
      else scan_contours frame rest st
  end.

(** The mask pipeline: background subtraction, closing, opening, blur and
    external contours.  The masks are temporaries and are kept as
    values. *)
Definition extract_contours (bs : subtractor) (img : image)
    : subtractor * list contour :=
  let '(bs, fg_mask) := subtractor_apply bs img in
  let kernel := getStructuringElement_ellipse (5, 5) in
  let fg_mask := morphologyEx fg_mask MORPH_CLOSE kernel in
  let fg_mask := morphologyEx fg_mask MORPH_OPEN kernel in
  let fg_mask := GaussianBlur fg_mask (5, 5) 0 in
  (bs, findContours_external_simple fg_mask).

(** [_detect_motion]: returns [(motion_detected, processed_frame)]. *)
Definition _detect_motion (self : MotionDetector) (frame : loc)
    : M (MotionDetector * (bool * loc)) :=
  img ← load frame;
  let '(bs, contours) := extract_contours (background_subtractor self) img in
  let self := set_background_subtractor bs self in
  '(motion_detected, motion_areas) ← scan_contours frame contours (false, []);
  overlay ← copy frame;
  update overlay (fun o => drawContours o motion_areas (-1) green (-1));;
  f ← load frame;
  o ← load overlay;
  frame' ← alloc (addWeighted f (7 # 10) o (3 # 10) 0);
  mret (self, (motion_detected, frame')).

Inductive control := Continue | Break.

(** [key = cv2.waitKey(1) & 0xFF; if key == ord('q'): break]. *)
Definition poll_quit : M control :=
  k ← waitKey;
  let key := Z.land k 255 in
  mret (if decide (key = 113) then Break else Continue).

(** The body of the [while] loop of [run] once a frame was read. *)
Definition run_iteration (self : MotionDetector) (frame : loc)
    : M (MotionDetector * control) :=
  let self := set_frame_count (frame_count self + 1) self in
  if decide (frame_count self < 30) then
    imshow "Motion Detector" frame;;
    c ← poll_quit;
    mret (self, c)
  else
    '(self, (motion_detected, processed_frame)) ← _detect_motion self frame;
    let status_text :=
      if motion_detected : bool then "Motion Detected!" else "Monitoring..." in
    let color : colour :=
      if motion_detected then (0, 0, 255) else (0, 255, 0) in
    update processed_frame
      (fun p => putText p status_text (10, 30) 1 color 2);;
    now ← datetime_now;
    stamp ← gets (fun w => strftime w now "%Y-%m-%d %H:%M:%S");
    update processed_frame
      (fun p => putText p ("Time: " +:+ stamp) (10, 60) (1 # 2) (255, 255, 255) 1);;
    imshow "Motion Detector" processed_frame;;
    match motion_detected, on_motion_detected self with
    | true, Some callback => callback frame
    | _, _ => mret tt
    end;;
    c ← poll_quit;
    mret (self, c).

(** The [while self.running] loop over the frames the camera still
    delivers; [cap.read()] fails when there are none left. *)
Fixpoint run_loop (feed : list image) (self : MotionDetector)
    : M MotionDetector :=
  if running self then
    match feed with
    | [] =>
        print "Error: Failed to read frame from camera";;
        mret self
    | img :: feed =>
        frame ← alloc img;
        '(self, c) ← run_iteration self frame;
        match c with
        | Break => mret self
        | Continue => run_loop feed self
        end
    end
  else mret self.

(** [run]. *)
Definition run (feed : list image) (self : MotionDetector) : M MotionDetector :=
  match cap self with
  | Some c =>
      if isOpened c then
        self ← run_loop feed self;
        mret (stop self)
      else
        print "Error: Camera not started. Call start() first.";;
        mret self
  | None =>
      print "Error: Camera not started. Call start() first.";;
      mret self
  end.

End Camera.

(** ** __init__.py *)

Section Main.
Context `{cv : OpenCV}.
Variable cfg : Config.t.

(** How [main] ends: it returns, or [sys.exit(code)] is called. *)
Inductive exit_status := Returned | Exit (code : Z).

(** The callback that [main] defines: it calls [notifier.notify(frame)] and
    drops the result. *)
Definition on_motion_detected_callback (frame : loc) : M unit :=
  notify cfg (Some frame);; mret tt.

(** [for error in errors: print(f"  - {error}")]. *)
Fixpoint print_errors (errors : list string) : M unit :=
  match errors with
  | [] => mret tt
  | error :: errors => print ("  - " +:+ error);; print_errors errors
  end.

(** [main], on the frames the camera will deliver.  [sys.exit] inside the
    [try] is not an [Exception], so the [except Exception] clause does not
    see it.  The [finally] clause calls [detector.stop()], which changes the
    detector object only; [main] does not use the detector afterwards. *)
Definition main (feed : list image) : M exit_status :=
  let errors := Config.validate cfg in
  match errors with
  | _ :: _ =>
      print "Configuration errors:";;
      print_errors errors;;
      print (nl +:+ "Please check your .env file configuration.");;
      mret (Exit 1)
  | [] =>
      modify (set_notifier NotificationManager_init);;
      let detector :=
        MotionDetector_init cfg None (Some on_motion_detected_callback) in
      try_except
        ('(started, detector) ← start detector;
         if negb started then
           print "Failed to start camera. Exiting.";;
           mret (Exit 1)
         else
           detector ← run cfg feed detector;
           mret Returned)
        (fun e =>
           print ("Error: " +:+ str_exn e);;
           mret (Exit 1))
  end.

End Main.

(** ** A raster implementation of the OpenCV interface

    A small implementation on pixel grids, used to run the embedding on
    concrete frames.  It follows the shape of the OpenCV operations (a
    reference background, a difference mask, one bounding box per frame,
    outlines and fills painted pixel by pixel); it is not a transcription of
    OpenCV's algorithms, which are outside the repository. *)

Module Raster.

Definition grid : Type := list (list colour).

Definition black : colour := (0, 0, 0).
Definition white : colour := (255, 255, 255).

(** The grid with [f row column pixel] at every position. *)
Definition mapi_grid (f : Z -> Z -> colour -> colour) (g : grid) : grid :=
  imap (fun r row => imap (fun c px => f (Z.of_nat r) (Z.of_nat c) px) row) g.

Definition zip_grid (f : colour -> colour -> colour) (a b : grid) : grid :=
  zip_with (zip_with f) a b.

Definition colour_eqb (p q : colour) : bool :=
  let '(a, b, c) := p in
  let '(x, y, z) := q in
  (a =? x) && (b =? y) && (c =? z).

(** Foreground: the pixels that differ from the reference background, which
    is the first frame seen. *)
Definition difference_mask (bg img : grid) : grid :=
  zip_grid (fun p q => if colour_eqb p q then black else white) bg img.

Definition apply_background (bs : option grid) (img : grid)
    : option grid * grid :=
  match bs with
  | None => (Some img, difference_mask img img)
  | Some bg => (Some bg, difference_mask bg img)
  end.

(** The positions of the foreground pixels. *)
Definition foreground (mask : grid) : list (Z * Z) :=
  concat (imap (fun r row =>
    omap (fun cp : nat * colour =>
            if colour_eqb cp.2 black then None
            else Some (Z.of_nat cp.1, Z.of_nat r))
      (imap pair row)) mask).

(** One contour: the bounding box [(x, y, w, h)] of the foreground. *)
Definition bounding_box (ps : list (Z * Z)) : list (Z * Z * Z * Z) :=
  match ps with
  | [] => []
  | (x0, y0) :: _ =>
      let xmin := foldr Z.min x0 (fst <$> ps) in
      let xmax := foldr Z.max x0 (fst <$> ps) in
      let ymin := foldr Z.min y0 (snd <$> ps) in
      let ymax := foldr Z.max y0 (snd <$> ps) in
      [(xmin, ymin, xmax - xmin + 1, ymax - ymin + 1)]
  end.

Definition inside (x1 y1 x2 y2 x y : Z) : bool :=
  (x1 <=? x) && (x <=? x2) && (y1 <=? y) && (y <=? y2).

Definition on_outline (x1 y1 x2 y2 x y : Z) : bool :=
  inside x1 y1 x2 y2 x y
  && ((x =? x1) || (x =? x2) || (y =? y1) || (y =? y2)).

Definition paint_outline (g : grid) (p1 p2 : point) (col : colour) (_ : Z) : grid :=
  mapi_grid (fun r c px =>
    if on_outline p1.1 p1.2 p2.1 p2.2 c r then col else px) g.

Definition fill_box (col : colour) (g : grid) (b : Z * Z * Z * Z) : grid :=
  let '(x, y, w, h) := b in
  mapi_grid (fun r c px =>
    if inside x y (x + w - 1) (y + h - 1) c r then col else px) g.

Definition blend (alpha beta gamma : Q) (p q : colour) : colour :=
  let mix a b := Qfloor (alpha * inject_Z a + beta * inject_Z b + gamma) in
  let '(a, b, c) := p in
  let '(x, y, z) := q in
  (mix a x, mix b y, mix c z).

(** Text is reduced to a mark at its origin. *)
Definition mark_text (g : grid) (_ : string) (org : point) (_ : Q)
    (col : colour) (_ : Z) : grid :=
  mapi_grid (fun r c px => if (c =? org.1) && (r =? org.2) then col else px) g.

(** An empty array cannot be encoded; otherwise one byte per row. *)
Definition encode (g : grid) (_ : Z) : option (list Byte.byte) :=
  match g with
  | [] => None
  | _ => Some ((fun _ => Byte.xff) <$> g)
  end.

Global Instance cv : OpenCV := {|
  image := grid;
  subtractor := option grid;
  contour := Z * Z * Z * Z;
  createBackgroundSubtractorMOG2 := fun _ _ _ => None;
  subtractor_apply := apply_background;
  getStructuringElement_ellipse := fun _ => [];
  morphologyEx := fun mask _ _ => mask;
  GaussianBlur := fun mask _ _ => mask;
  findContours_external_simple := fun mask => bounding_box (foreground mask);
  contourArea := fun b => inject_Z (b.1.2 * b.2);
  boundingRect := fun b => b;
  rectangle := paint_outline;
  drawContours := fun g cs _ col _ => foldl (fill_box col) g cs;
  addWeighted := fun a alpha b beta gamma => zip_grid (blend alpha beta gamma) a b;
  putText := mark_text;
  imencode_jpg := encode
|}.

(** The pixel in row [r], column [c]. *)
Definition pixel_at (g : grid) (r c : nat) : option colour :=
  match g !! r with
  | Some row => row !! c
  | None => None
  end.

(** A [w] by [h] frame, black except for a white block. *)
Definition frame_with_block (w h : nat) (x y bw bh : Z) : grid :=
  fill_box white (replicate h (replicate w black)) (x, y, bw, bh).

Definition empty_scene : grid := frame_with_block 40 30 0 0 0 0.
Definition intruder_scene : grid := frame_with_block 40 30 5 3 25 24.

End Raster.

(** ** Vocabulary of the properties *)

Section Vocabulary.
Context `{cv : OpenCV}.
Variable cfg : Config.t.

(** The message as it stands before the attachment block: subject and
    body carry the first two clock readings of [send_body]. *)
Definition base_message (w : World) : message :=
  let n := clock_reads w in
  attach
    (mk_message (Config.EMAIL_FROM cfg) (Config.EMAIL_TO cfg)
       ("Motion Detected - "
        +:+ strftime w (wall_clock w n) "%Y-%m-%d %H:%M:%S") [])
    (MIMEText
       (email_body cfg (strftime w (wall_clock w (S n)) "%Y-%m-%d %H:%M:%S"))
       "plain").

(** Whether [frame] can be encoded and wrapped: it is an array, OpenCV
    encodes it, and [MIMEImage] recognises the bytes. *)
Definition attachable (w : World) (frame : loc) : bool :=
  match heap w !! frame with
  | Some img =>
      match imencode_jpg img 85 with
      | Some image_bytes => image_subtype_known w image_bytes
      | None => false
      end
  | None => false
  end.

Definition warning_line (e : exn) : string :=
  "Warning: Could not attach image to email: " +:+ str_exn e.

Definition error_line (e : exn) : string :=
  "Error sending email notification: " +:+ str_exn e.

(** What the attachment block leaves alone. *)
Definition delivery_untouched (w w' : World) : Prop :=
  notifier w' = notifier w /\ outbox w' = outbox w /\
  sessions w' = sessions w /\ network w' = network w /\
  wall_clock w' = wall_clock w /\ heap w' = heap w /\
  (clock_reads w <= clock_reads w')%nat.

(** The bounding box of one contour drawn on an image. *)
Definition draw_box (img : image) (c : contour) : image :=
  let '(x, y, w, h) := boundingRect c in
  rectangle img (x, y) (x + w, y + h) green 2.

(** The boxes of all significant contours, in order. *)
Definition draw_boxes (img : image) (contours : list contour) : image :=
  foldl draw_box img (filter (fun c => significant cfg c = true) contours).

End Vocabulary.

(** *** The pieces of a classified frame *)

Section DetectionVocabulary.
Context `{cv : OpenCV}.
Variable cfg : Config.t.

(** The contours [_detect_motion] extracts from an image. *)
Definition contours_of (self : MotionDetector) (img : image) : list contour :=
  (extract_contours (background_subtractor self) img).2.

(** [motion_areas]: the significant contours, in extraction order. *)
Definition motion_areas_of (self : MotionDetector) (img : image) : list contour :=
  filter (fun c => significant cfg c = true) (contours_of self img).

Definition motion_in (self : MotionDetector) (img : image) : bool :=
  existsb (significant cfg) (contours_of self img).

(** The input frame once the boxes are drawn. *)
Definition boxed_image (self : MotionDetector) (img : image) : image :=
  draw_boxes cfg img (contours_of self img).

(** The overlay: a copy of the boxed frame with the significant contours
    filled. *)
Definition overlay_image (self : MotionDetector) (img : image) : image :=
  drawContours (boxed_image self img) (motion_areas_of self img) (-1) green (-1).

(** The processed frame that [_detect_motion] returns. *)
Definition blended_image (self : MotionDetector) (img : image) : image :=
  addWeighted (boxed_image self img) (7 # 10) (overlay_image self img) (3 # 10) 0.

(** The processed frame with the status line and the time stamp, as it is
    shown. *)
Definition annotated_image (self : MotionDetector) (img : image)
    (stamp : string) : image :=
  let motion_detected := motion_in self img in
  let status_text :=
    if motion_detected then "Motion Detected!" else "Monitoring..." in
  let color : colour :=
    if motion_detected then (0, 0, 255) else (0, 255, 0) in
  putText
    (putText (blended_image self img) status_text (10, 30) 1 color 2)
    ("Time: " +:+ stamp) (10, 60) (1 # 2) (255, 255, 255) 1.

(** The store after a frame was classified and annotated: the frame boxed,
    and two new arrays, the overlay and the processed frame. *)
Definition overlay_loc (frame : loc) (h : gmap loc image) (boxed : image) : loc :=
  fresh (dom (<[frame := boxed]> h)).

Definition processed_loc (frame : loc) (h : gmap loc image)
    (boxed overlay : image) : loc :=
  fresh (dom (<[overlay_loc frame h boxed := overlay]> (<[frame := boxed]> h))).

Definition classified_store (self : MotionDetector) (frame : loc) (img : image)
    (stamp : string) (h : gmap loc image) : gmap loc image :=
  let boxed := boxed_image self img in
  let overlay := overlay_image self img in
  <[processed_loc frame h boxed overlay := annotated_image self img stamp]>
    (<[overlay_loc frame h boxed := overlay]> (<[frame := boxed]> h)).

(** The world at the point where [run] decides whether to call the
    callback: the clock was read once for the time stamp and the annotated
    frame is on the screen. *)
Definition classified_world (self : MotionDetector) (frame : loc) (img : image)
    (w : World) : World :=
  let stamp :=
    strftime w (wall_clock w (clock_reads w)) "%Y-%m-%d %H:%M:%S" in
  set_screen
    (screen w ++ [("Motion Detector", annotated_image self img stamp)])
    (set_clock_reads (S (clock_reads w))
       (set_heap (classified_store self frame img stamp (heap w)) w)).

(** The result of [poll_quit]: break on a key whose low byte is [q]. *)
Definition quit_requested (w : World) : bool :=
  bool_decide (Z.land (hd (-1) (keys w)) 255 = 113).

(** A callback that returns for every frame and world, and one that leaves
    the pending keys alone. *)
Definition callback_returns (callback : loc -> M unit) : Prop :=
  forall (l : loc) (w : World), exists w', callback l w = (Ret tt, w').

Definition callback_keeps_keys (callback : loc -> M unit) : Prop :=
  forall (l : loc) (w : World), keys (callback l w).2 = keys w.

(** A property of the callback of a detector, if it has one. *)
Definition for_callback (P : (loc -> M unit) -> Prop) (self : MotionDetector)
    : Prop :=
  match on_motion_detected self with
  | Some callback => P callback
  | None => True
  end.

(** The detector that [main] runs once [start] has succeeded. *)
Definition started_detector : MotionDetector :=
  set_running true
    (set_cap (Some (mk_capture true))
       (MotionDetector_init cfg None (Some (on_motion_detected_callback cfg)))).

(** The settings for which the comparison [elapsed < cooldown] of
    [_is_cooldown_active] is the comparison of exact numbers.
    [timedelta.total_seconds()] is the double nearest to the number of
    microseconds divided by [10**6].  Below [2**34] two neighbouring doubles
    are less than two microseconds apart, so for a cooldown of at most
    [2**33] seconds in absolute value a whole number of microseconds short of
    the cooldown is never rounded up to it, and the double is below the
    cooldown exactly when the quotient is.  Larger settings are outside the
    properties that range over the cooldown. *)
Definition cooldown_compares_exactly : Prop :=
  Z.abs (Config.NOTIFICATION_COOLDOWN_SECONDS cfg) <= 8589934592.


(** The line [run] prints when the camera is not open. *)
Definition not_started : string :=
  "Error: Camera not started. Call start() first.".

End DetectionVocabulary.

(** ** Sample inputs *)

Definition sample_config : Config.t :=
  Config.mk 0 1000 500 true true "smtp.example.org" 587
    "camera@example.org" "owner@example.org" "app-password" 60.

Definition email_off_config : Config.t :=
  Config.mk 0 1000 500 true false "smtp.example.org" 587
    "camera@example.org" "owner@example.org" "app-password" 60.

Definition blank_config : Config.t :=
  Config.mk 0 1000 500 true true "smtp.example.org" 587 "" "" "" 60.

Definition second : Z := 1000000.

(** A world whose clock advances one second per reading. *)
Definition sample_world (h : gmap loc Raster.grid) (net : nat -> option smtp_step)
    (last : option datetime) (start_time : datetime) : World :=
  mk_world h (fun n => start_time + second * Z.of_nat n) 0 net 0 []
    (fun _ => true) (fun t _ => pretty t) (fun _ => true) [] [] []
    (mk_notifier last).

(** A detector past its warm-up whose subtractor holds the empty scene as
    background, and one that has seen five frames. *)
Definition watching_detector : MotionDetector :=
  set_frame_count 120
    (set_background_subtractor (Some Raster.empty_scene)
       (MotionDetector_init sample_config None None)).

Definition warming_detector : MotionDetector :=
  set_frame_count 5 watching_detector.

(** The store with the intruder frame at location 1. *)
Definition intruder_world : World :=
  sample_world {[ 1%positive := Raster.intruder_scene ]} (fun _ => None) None 0.

(** A world without a camera, and one where [q] is the pending key. *)
Definition no_camera_world : World :=
  mk_world (∅ : gmap loc Raster.grid) (fun n => second * Z.of_nat n) 0
    (fun _ => None) 0 [] (fun _ => false) (fun t _ => pretty t) (fun _ => true)
    [] [] [] (mk_notifier None).


(** A feed of two frames: the empty scene, then the intruder. *)
Definition two_frames : list (@image Raster.cv) :=
  [Raster.empty_scene; Raster.intruder_scene].

(** Thirty frames: the empty scene 29 times, then the intruder. *)
Definition thirty_frames : list (@image Raster.cv) :=
  replicate 29 Raster.empty_scene ++ [Raster.intruder_scene].

(** The intruder frame at location 1 and a server that refuses the login. *)
Definition refusing_server_world : World :=
  sample_world {[ 1%positive := Raster.intruder_scene ]}
    (fun _ => Some Login) None 0.

(** A world with an empty store. *)
Definition empty_world : World :=
  sample_world ∅ (fun _ => None) None 0.

(** Detectors: at the end of the warm-up, switched on, and with the callback
    of [main]. *)
Definition thirtieth_detector : MotionDetector :=
  set_frame_count 29 watching_detector.


Definition alerting_detector : MotionDetector :=
  mk_detector 0 (Some (on_motion_detected_callback sample_config))
    (Some (mk_capture true)) (Some Raster.empty_scene) 120 true.

(** * Properties *)

(** ** Configuration *)

(** C6: with notifications and e-mail enabled and the sender, recipient
    and password all empty, [validate] returns exactly the three messages,
    one per missing field, in that order. *)
Theorem validate_reports_every_missing_field (cls : Config.t) :
  Config.EMAIL_ENABLED cls = true ->
  Config.NOTIFICATION_ENABLED cls = true ->
  Config.EMAIL_FROM cls = "" ->
  Config.EMAIL_TO cls = "" ->
  Config.EMAIL_PASSWORD cls = "" ->
  Config.validate cls = [Config.err_from; Config.err_to; Config.err_password]
  /\ length (Config.validate cls) = 3%nat.
Proof.
  intros He Hn Hf Ht Hp. unfold Config.validate.
  rewrite He, Hn, Hf, Ht, Hp. split; reflexivity.
Qed.

Lemma validate_reports_every_missing_field_witness :
  Config.validate blank_config
    = [Config.err_from; Config.err_to; Config.err_password]
  /\ length (Config.validate blank_config) = 3%nat.
Proof.
  apply (validate_reports_every_missing_field blank_config); reflexivity.
Defined.

(** A configuration with nothing missing passes. *)
Lemma validate_accepts_complete_config : Config.validate sample_config = [].
Proof. reflexivity. Qed.

(** ** The monad *)

Section MonadLemmas.
Context `{cv : OpenCV}.

Lemma bind_eq {A B} (m : M A) (f : A -> M B) (w : World) :
  (m ≫= f) w = match m w with
               | (Ret a, w') => f a w'
               | (Raise e, w') => (Raise e, w')
               end.
Proof. reflexivity. Qed.

Lemma set_heap_same (w : World) : set_heap (heap w) w = w.
Proof. destruct w; reflexivity. Qed.

Lemma set_keys_same (w : World) : set_keys (keys w) w = w.
Proof. destruct w; reflexivity. Qed.

Lemma load_eq (l : loc) (img : image) (w : World) :
  heap w !! l = Some img -> load l w = (Ret img, w).
Proof. unfold load. intros ->. reflexivity. Qed.

Lemma update_eq (l : loc) (f : image -> image) (img : image) (w : World) :
  heap w !! l = Some img ->
  update l f w = (Ret tt, set_heap (<[l := f img]> (heap w)) w).
Proof. intros H. unfold update. rewrite bind_eq, (load_eq l img w H). reflexivity. Qed.

Lemma copy_eq (l : loc) (img : image) (w : World) :
  heap w !! l = Some img ->
  copy l w = (Ret (fresh (dom (heap w))),
              set_heap (<[fresh (dom (heap w)) := img]> (heap w)) w).
Proof. intros H. unfold copy. rewrite bind_eq, (load_eq l img w H). reflexivity. Qed.

Lemma imshow_eq (name : string) (l : loc) (img : image) (w : World) :
  heap w !! l = Some img ->
  imshow name l w = (Ret tt, set_screen (screen w ++ [(name, img)]) w).
Proof. intros H. unfold imshow. rewrite bind_eq, (load_eq l img w H). reflexivity. Qed.

(** A location taken fresh differs from every location in use. *)
Lemma fresh_ne (h : gmap loc image) (l : loc) :
  is_Some (h !! l) -> fresh (dom h) <> l.
Proof.
  intros Hl Heq. apply (is_fresh (dom h)). rewrite Heq.
  apply elem_of_dom. exact Hl.
Qed.

Lemma fresh_unused (h : gmap loc image) : h !! fresh (dom h) = None.
Proof. apply not_elem_of_dom, is_fresh. Qed.

End MonadLemmas.

Ltac unfold_M :=
  unfold mbind, M_bind, mret, M_ret, gets, modify, raise, try_except,
    datetime_now, print, load, update, alloc, copy, imshow, waitKey in *.

(** ** The notifier *)

Section NotifierProperties.
Context `{cv : OpenCV}.
Variable cfg : Config.t.

Lemma Qltb_lt (x y : Q) : Qltb x y = true <-> (x < y)%Q.
Proof.
  unfold Qltb. rewrite Qlt_alt. destruct (x ?= y)%Q; split; congruence.
Qed.

Lemma Qltb_ge (x y : Q) : Qltb x y = false <-> (y <= x)%Q.
Proof.
  rewrite <- not_true_iff_false, Qltb_lt. split.
  - apply Qnot_lt_le.
  - apply Qle_not_lt.
Qed.

Lemma cooldown_eq (w : World) :
  _is_cooldown_active cfg w =
  match last_notification_time (notifier w) with
  | None => (Ret false, w)
  | Some last =>
      (Ret (Qltb (total_seconds (wall_clock w (clock_reads w) - last))
              (inject_Z (Config.NOTIFICATION_COOLDOWN_SECONDS cfg))),
       set_clock_reads (S (clock_reads w)) w)
  end.
Proof.
  unfold _is_cooldown_active. unfold_M.
  destruct (last_notification_time (notifier w)); reflexivity.
Qed.

(** The cooldown check reads the clock at most once and touches nothing
    else. *)
Lemma cooldown_untouched (w : World) :
  delivery_untouched w (_is_cooldown_active cfg w).2
  /\ stdout (_is_cooldown_active cfg w).2 = stdout w
  /\ strftime (_is_cooldown_active cfg w).2 = strftime w
  /\ image_subtype_known (_is_cooldown_active cfg w).2 = image_subtype_known w.
Proof.
  rewrite cooldown_eq. unfold delivery_untouched.
  destruct (last_notification_time (notifier w)); cbn; repeat split; lia.
Qed.

(** The inner [try] raises exactly when the frame is not [attachable]. *)
Lemma attach_frame_raises (msg : message) (frame : loc) (w : World) :
  attachable w frame = false <->
  exists e, (attach_frame msg frame w).1 = Raise e.
Proof.
  unfold attachable, attach_frame. unfold_M.
  destruct (heap w !! frame) as [img|]; cbn; [|split; eauto].
  destruct (imencode_jpg img 85) as [b|]; cbn; [|split; eauto].
  destruct (image_subtype_known w b); cbn; split; eauto.
  - discriminate.
  - intros [e He]. discriminate.
Qed.

Lemma attach_or_warn_fails (msg : message) (frame : loc) (w : World) :
  attachable w frame = false ->
  exists e, attach_or_warn msg (Some frame) w =
    (Ret msg, set_stdout (stdout w ++ [warning_line e]) w).
Proof.
  unfold attachable, attach_or_warn, attach_frame, warning_line. unfold_M.
  destruct (heap w !! frame) as [img|]; [|eexists; reflexivity].
  destruct (imencode_jpg img 85) as [b|]; [|eexists; reflexivity].
  intros ->. eexists; reflexivity.
Qed.

(** The attachment block never raises. *)
Lemma attach_or_warn_returns (msg : message) (frame : option loc) (w : World) :
  exists msg' w', attach_or_warn msg frame w = (Ret msg', w')
    /\ delivery_untouched w w'.
Proof.
  unfold attach_or_warn, attach_frame, delivery_untouched. unfold_M.
  destruct frame as [frame|];
    [|eexists _, _; split; [reflexivity|cbn; auto 10]].
  destruct (heap w !! frame) as [img|];
    [|eexists _, _; split; [reflexivity|cbn; auto 10]].
  destruct (imencode_jpg img 85) as [b|];
    [|eexists _, _; split; [reflexivity|cbn; auto 10]].
  destruct (image_subtype_known w b);
    eexists _, _; (split; [reflexivity|cbn; auto 10]).
Qed.

Lemma smtp_session_eq (msg : message) (w : World) :
  smtp_session msg w =
  let w1 := set_sessions (S (sessions w)) w in
  match network w (sessions w) with
  | None => (Ret tt, set_outbox (outbox w ++ [msg]) w1)
  | Some Quit => (Raise (SMTPException Quit), set_outbox (outbox w ++ [msg]) w1)
  | Some s => (Raise (SMTPException s), w1)
  end.
Proof.
  unfold smtp_session, smtp_do. unfold_M.
  destruct (network w (sessions w)) as [[]|]; reflexivity.
Qed.

Lemma send_body_eq (frame : option loc) (w : World) :
  send_body cfg frame w =
  match attach_or_warn (base_message cfg w) frame
          (set_clock_reads (S (S (clock_reads w))) w) with
  | (Ret msg, w3) =>
      match smtp_session msg w3 with
      | (Ret _, w4) =>
          (Ret true,
           set_notifier (mk_notifier (Some (wall_clock w4 (clock_reads w4))))
             (set_clock_reads (S (clock_reads w4)) w4))
      | (Raise e, w4) => (Raise e, w4)
      end
  | (Raise e, w3) => (Raise e, w3)
  end.
Proof.
  unfold send_body, base_message.
  unfold mbind, M_bind, mret, M_ret, datetime_now, gets, modify.
  cbn -[attach_or_warn smtp_session String.append email_body].
  destruct (attach_or_warn _ _ _) as [[msg|e] w3]; [|reflexivity].
  destruct (smtp_session msg w3) as [[[]|e] w4]; reflexivity.
Qed.

(** The body of the outer [try], by what the network does with the
    session: the message that was built, the world after the attachment
    block, and the outcome. *)
Lemma send_body_outcome (frame : option loc) (w : World) :
  exists msg w3,
    attach_or_warn (base_message cfg w) frame
      (set_clock_reads (S (S (clock_reads w))) w) = (Ret msg, w3)
    /\ delivery_untouched w w3
    /\ send_body cfg frame w =
       let w4 := set_sessions (S (sessions w)) w3 in
       match network w (sessions w) with
       | None =>
           (Ret true,
            set_notifier (mk_notifier (Some (wall_clock w (clock_reads w3))))
              (set_clock_reads (S (clock_reads w3))
                 (set_outbox (outbox w ++ [msg]) w4)))
       | Some Quit =>
           (Raise (SMTPException Quit), set_outbox (outbox w ++ [msg]) w4)
       | Some s => (Raise (SMTPException s), w4)
       end.
Proof.
  destruct (attach_or_warn_returns (base_message cfg w) frame
              (set_clock_reads (S (S (clock_reads w))) w))
    as (msg & w3 & Hatt & Hn & Ho & Hs & Hnet & Hclk & Hh & Hr).
  exists msg, w3. split; [exact Hatt|]. cbn in Hn, Ho, Hs, Hnet, Hclk, Hh, Hr.
  split; [unfold delivery_untouched; repeat split; auto; lia|].
  rewrite send_body_eq, Hatt, smtp_session_eq. cbn zeta.
  rewrite Hnet, Hs, Ho.
  destruct (network w (sessions w)) as [[]|]; cbn; rewrite ?Hclk; reflexivity.
Qed.

Lemma send_when_disabled (frame : option loc) (w : World) :
  Config.EMAIL_ENABLED cfg && Config.NOTIFICATION_ENABLED cfg = false ->
  send_email_notification cfg frame w = (Ret false, w).
Proof.
  unfold send_email_notification.
  destruct (Config.EMAIL_ENABLED cfg), (Config.NOTIFICATION_ENABLED cfg);
    cbn; intros; try discriminate; reflexivity.
Qed.

Lemma send_gate_closed (frame : option loc) (w : World) :
  Config.EMAIL_ENABLED cfg = true ->
  Config.NOTIFICATION_ENABLED cfg = true ->
  (_is_cooldown_active cfg w).1 = Ret true ->
  send_email_notification cfg frame w
  = (Ret false, (_is_cooldown_active cfg w).2).
Proof.
  intros He Hn Hc. unfold send_email_notification. rewrite He, Hn.
  cbn [negb orb]. rewrite bind_eq.
  destruct (_is_cooldown_active cfg w) as [r w1].
  cbn in Hc. subst r. reflexivity.
Qed.

Lemma send_gate_open (frame : option loc) (w : World) :
  Config.EMAIL_ENABLED cfg = true ->
  Config.NOTIFICATION_ENABLED cfg = true ->
  (_is_cooldown_active cfg w).1 = Ret false ->
  send_email_notification cfg frame w =
  match send_body cfg frame (_is_cooldown_active cfg w).2 with
  | (Ret b, w') => (Ret b, w')
  | (Raise e, w') =>
      (Ret false, set_stdout (stdout w' ++ [error_line e]) w')
  end.
Proof.
  intros He Hn Hc. unfold send_email_notification. rewrite He, Hn.
  cbn [negb orb]. rewrite bind_eq.
  destruct (_is_cooldown_active cfg w) as [r w1].
  cbn in Hc. subst r. unfold try_except. cbn [snd].
  destruct (send_body cfg frame w1) as [[b|e] w2]; reflexivity.
Qed.

(** The cooldown check returns, and with one of the two booleans. *)
Lemma cooldown_returns (w : World) :
  (_is_cooldown_active cfg w).1 = Ret true
  \/ (_is_cooldown_active cfg w).1 = Ret false.
Proof.
  rewrite cooldown_eq.
  destruct (last_notification_time (notifier w)); cbn; [|auto].
  destruct (Qltb _ _); auto.
Qed.

Lemma attachable_ext (w w' : World) (frame : loc) :
  heap w' = heap w ->
  image_subtype_known w' = image_subtype_known w ->
  attachable w' frame = attachable w frame.
Proof. unfold attachable. intros -> ->. reflexivity. Qed.

(** An open gate: what [send_email_notification] does, by the outcome of
    the SMTP session.  [w1] is the world after the cooldown check, [w3]
    the world after the attachment block. *)
Lemma send_open_outcome (frame : option loc) (w : World) :
  Config.EMAIL_ENABLED cfg = true ->
  Config.NOTIFICATION_ENABLED cfg = true ->
  (_is_cooldown_active cfg w).1 = Ret false ->
  let w1 := (_is_cooldown_active cfg w).2 in
  exists msg w3,
    attach_or_warn (base_message cfg w1) frame
      (set_clock_reads (S (S (clock_reads w1))) w1) = (Ret msg, w3)
    /\ delivery_untouched w w3
    /\ send_email_notification cfg frame w =
       let w4 := set_sessions (S (sessions w)) w3 in
       match network w (sessions w) with
       | None =>
           (Ret true,
            set_notifier (mk_notifier (Some (wall_clock w (clock_reads w3))))
              (set_clock_reads (S (clock_reads w3))
                 (set_outbox (outbox w ++ [msg]) w4)))
       | Some Quit =>
           (Ret false,
            set_stdout (stdout w3 ++ [error_line (SMTPException Quit)])
              (set_outbox (outbox w ++ [msg]) w4))
       | Some s =>
           (Ret false,
            set_stdout (stdout w3 ++ [error_line (SMTPException s)]) w4)
       end.
Proof.
  intros He Hn Hc w1.
  destruct (cooldown_untouched w)
    as ((Hn1 & Ho1 & Hs1 & Hnet1 & Hclk1 & Hh1 & Hr1) & _).
  fold w1 in Hn1, Ho1, Hs1, Hnet1, Hclk1, Hh1, Hr1.
  destruct (send_body_outcome frame w1)
    as (msg & w3 & Hatt & (Hn3 & Ho3 & Hs3 & Hnet3 & Hclk3 & Hh3 & Hr3) & Hbody).
  exists msg, w3. split; [exact Hatt|].
  split; [unfold delivery_untouched; repeat split; try congruence; lia|].
  rewrite send_gate_open by assumption. fold w1. rewrite Hbody. cbn zeta.
  rewrite Hnet1, Hs1, Ho1, Hclk1.
  destruct (network w (sessions w)) as [[]|]; reflexivity.
Qed.

(** C3: with a cooldown of 60 seconds and the last alert at time [t], an
    attempt whose clock reading is [t + d] finds the cooldown active
    exactly when [d] is less than 60 seconds.  Below 60 seconds the
    attempt returns [False] without opening an SMTP session; from 60
    seconds on the session is opened, and the call returns [True] with the
    message delivered when the network accepts it. *)
Theorem cooldown_gate_at_sixty_seconds
    (frame : option loc) (w : World) (t d : Z) :
  Config.NOTIFICATION_COOLDOWN_SECONDS cfg = 60 ->
  Config.EMAIL_ENABLED cfg = true ->
  Config.NOTIFICATION_ENABLED cfg = true ->
  last_notification_time (notifier w) = Some t ->
  wall_clock w (clock_reads w) = t + d ->
  let r := send_email_notification cfg frame w in
  ((_is_cooldown_active cfg w).1 = Ret true <-> (total_seconds d < 60)%Q)
  /\ ((_is_cooldown_active cfg w).1 = Ret false <-> (60 <= total_seconds d)%Q)
  /\ ((total_seconds d < 60)%Q ->
      r.1 = Ret false /\ sessions r.2 = sessions w
      /\ outbox r.2 = outbox w /\ notifier r.2 = notifier w)
  /\ ((60 <= total_seconds d)%Q ->
      sessions r.2 = S (sessions w)
      /\ (network w (sessions w) = None ->
          r.1 = Ret true /\ exists msg, outbox r.2 = outbox w ++ [msg])).
Proof.
  intros Hcool He Hn Hlast Hnow r.
  assert (Hact : (_is_cooldown_active cfg w).1
                 = Ret (Qltb (total_seconds d) (inject_Z 60))).
  { rewrite cooldown_eq, Hlast, Hnow, Hcool. cbn [fst].
    replace (t + d - t) with d by lia. reflexivity. }
  assert (Htrue : (_is_cooldown_active cfg w).1 = Ret true
                  <-> (total_seconds d < 60)%Q).
  { rewrite Hact, <- Qltb_lt. split; [intros [= H]; exact H|]. intros H. f_equal. exact H. }
  assert (Hfalse : (_is_cooldown_active cfg w).1 = Ret false
                   <-> (60 <= total_seconds d)%Q).
  { rewrite Hact, <- Qltb_ge. split; [intros [= H]; exact H|]. intros H. f_equal. exact H. }
  split; [exact Htrue|]. split; [exact Hfalse|]. split.
  - intros Hlt. apply Htrue in Hlt. subst r.
    rewrite send_gate_closed by assumption.
    destruct (cooldown_untouched w) as ((Hn1 & Ho1 & Hs1 & _) & _).
    cbn [fst snd]. auto.
  - intros Hge. apply Hfalse in Hge.
    destruct (send_open_outcome frame w He Hn Hge)
      as (msg & w3 & _ & (Hn3 & Ho3 & Hs3 & _) & Hsend).
    subst r. rewrite Hsend. cbn zeta. split.
    + destruct (network w (sessions w)) as [[]|]; reflexivity.
    + intros ->. cbn. split; [reflexivity|]. exists msg. reflexivity.
Qed.

(** C4: when the next SMTP session raises, at whichever step,
    [send_email_notification] returns [False] and leaves
    [last_notification_time] as it was; if the gate was open the session
    was indeed attempted and the error was printed. *)
Theorem transport_failure_keeps_timestamp
    (frame : option loc) (w : World) (s : smtp_step) :
  network w (sessions w) = Some s ->
  let r := send_email_notification cfg frame w in
  r.1 = Ret false
  /\ last_notification_time (notifier r.2) = last_notification_time (notifier w)
  /\ (Config.EMAIL_ENABLED cfg = true ->
      Config.NOTIFICATION_ENABLED cfg = true ->
      (_is_cooldown_active cfg w).1 = Ret false ->
      sessions r.2 = S (sessions w)
      /\ last (stdout r.2) = Some (error_line (SMTPException s))).
Proof.
  intros Hnet r.
  assert (Hopen : Config.EMAIL_ENABLED cfg = true ->
                  Config.NOTIFICATION_ENABLED cfg = true ->
                  (_is_cooldown_active cfg w).1 = Ret false ->
                  r.1 = Ret false /\ notifier r.2 = notifier w
                  /\ sessions r.2 = S (sessions w)
                  /\ last (stdout r.2) = Some (error_line (SMTPException s))).
  { intros He Hn Hc.
    destruct (send_open_outcome frame w He Hn Hc)
      as (msg & w3 & _ & (Hn3 & _) & Hsend).
    subst r. rewrite Hsend, Hnet. cbn zeta.
    destruct s; cbn; rewrite last_snoc; auto. }
  destruct (Config.EMAIL_ENABLED cfg) eqn:He; cycle 1.
  { subst r. rewrite send_when_disabled by (rewrite He; reflexivity).
    repeat split; discriminate. }
  destruct (Config.NOTIFICATION_ENABLED cfg) eqn:Hn; cycle 1.
  { subst r. rewrite send_when_disabled by (rewrite He, Hn; reflexivity).
    repeat split; discriminate. }
  destruct (cooldown_returns w) as [Hc | Hc].
  - subst r. rewrite send_gate_closed by assumption.
    destruct (cooldown_untouched w) as ((Hn1 & _) & _).
    cbn [fst snd]. rewrite Hn1.
    split; [reflexivity|]. split; [reflexivity|]. intros _ _ Hc'. congruence.
  - destruct (Hopen eq_refl eq_refl Hc) as (Hr & Hno & Hs & Hout).
    rewrite Hno. auto.
Qed.

(** C7: a frame is supplied, encoding or wrapping it fails, the gate is
    open and the network accepts the session: the call returns [True], and
    the message delivered has the text body as its only part; the failure
    is printed as a warning. *)
Theorem encoding_failure_does_not_block_send (frame : loc) (w : World) :
  Config.EMAIL_ENABLED cfg = true ->
  Config.NOTIFICATION_ENABLED cfg = true ->
  (_is_cooldown_active cfg w).1 = Ret false ->
  attachable w frame = false ->
  network w (sessions w) = None ->
  let r := send_email_notification cfg (Some frame) w in
  r.1 = Ret true
  /\ exists msg body e,
      outbox r.2 = outbox w ++ [msg]
      /\ msg_parts msg = [MIMEText body "plain"]
      /\ stdout r.2 = stdout w ++ [warning_line e].
Proof.
  intros He Hn Hc Hfail Hnet r.
  destruct (send_open_outcome (Some frame) w He Hn Hc)
    as (msg & w3 & Hatt & _ & Hsend).
  destruct (cooldown_untouched w) as ((_ & _ & _ & _ & _ & Hh1 & _) & Hout1 & _ & Hk1).
  set (w1 := (_is_cooldown_active cfg w).2) in *.
  destruct (attach_or_warn_fails (base_message cfg w1) frame
              (set_clock_reads (S (S (clock_reads w1))) w1)) as [e Hwarn].
  { rewrite <- Hfail. apply attachable_ext; cbn; assumption. }
  rewrite Hwarn in Hatt. injection Hatt as <- <-.
  subst r. rewrite Hsend, Hnet. cbn. split; [reflexivity|].
  eexists _, _, e. rewrite Hout1. repeat split.
Qed.

(** C9: [send_email_notification] always returns a boolean; when it
    returns [False] the timestamp is the one before the call; when it
    returns [True] the timestamp is the value of the clock reading made
    last.  It returns [True] exactly when both switches are on, the
    cooldown is not active and no step of the SMTP session raises. *)
Theorem timestamp_changes_only_on_success (frame : option loc) (w : World) :
  let r := send_email_notification cfg frame w in
  (r.1 = Ret false \/ r.1 = Ret true)
  /\ (r.1 = Ret false ->
      last_notification_time (notifier r.2)
      = last_notification_time (notifier w))
  /\ (r.1 = Ret true ->
      exists n, clock_reads r.2 = S n
        /\ last_notification_time (notifier r.2) = Some (wall_clock w n))
  /\ (r.1 = Ret true <->
      Config.EMAIL_ENABLED cfg = true
      /\ Config.NOTIFICATION_ENABLED cfg = true
      /\ (_is_cooldown_active cfg w).1 = Ret false
      /\ network w (sessions w) = None).
Proof.
  intros r.
  destruct (Config.EMAIL_ENABLED cfg) eqn:He; cycle 1.
  { subst r. rewrite send_when_disabled by (rewrite He; reflexivity).
    cbn. repeat split; try discriminate; auto. intros (? & _). discriminate. }
  destruct (Config.NOTIFICATION_ENABLED cfg) eqn:Hn; cycle 1.
  { subst r. rewrite send_when_disabled by (rewrite He, Hn; reflexivity).
    cbn. repeat split; try discriminate; auto.
    intros (_ & ? & _). discriminate. }
  destruct (cooldown_returns w) as [Hc | Hc].
  - subst r. rewrite send_gate_closed by assumption.
    destruct (cooldown_untouched w) as ((Hn1 & _) & _).
    cbn [fst snd]. rewrite Hn1, Hc.
    repeat split; try discriminate; auto. intros (_ & _ & ? & _). discriminate.
  - destruct (send_open_outcome frame w He Hn Hc)
      as (msg & w3 & _ & (Hn3 & _) & Hsend).
    subst r. rewrite Hsend. cbn zeta.
    destruct (network w (sessions w)) as [s|]; [destruct s|]; cbn;
      rewrite ?Hn3; repeat split; try discriminate; auto;
      try (intros (_ & _ & _ & ?); discriminate).
    intros _. eexists; split; reflexivity.
Qed.

(** C10: with notifications enabled and e-mail disabled, [notify]
    returns [False] for every frame and leaves the world as it was. *)
Theorem notify_without_email_never_sends (frame : option loc) (w : World) :
  Config.NOTIFICATION_ENABLED cfg = true ->
  Config.EMAIL_ENABLED cfg = false ->
  notify cfg frame w = (Ret false, w).
Proof.
  intros Hn He. unfold notify. rewrite Hn, He. reflexivity.
Qed.

End NotifierProperties.

(** *** The notifier on sample inputs *)

(** Sixty seconds after the last alert the gate is open and the alert is
    sent. *)
Lemma cooldown_gate_at_sixty_seconds_witness :
  let w := sample_world ∅ (fun _ => None) (Some 0) (60 * second) in
  (_is_cooldown_active sample_config w).1 = Ret false
  /\ (send_email_notification sample_config None w).1 = Ret true.
Proof.
  intros w.
  destruct (cooldown_gate_at_sixty_seconds sample_config None w 0 (60 * second))
    as (_ & Hfalse & _ & Hopen); try reflexivity.
  assert (Hge : (60 <= total_seconds (60 * second))%Q) by (vm_compute; discriminate).
  split.
  - apply Hfalse, Hge.
  - apply Hopen; [exact Hge | reflexivity].
Defined.

(** One microsecond earlier it is still closed. *)
Lemma cooldown_gate_just_below_sixty_seconds :
  let w := sample_world ∅ (fun _ => None) (Some 0) (60 * second - 1) in
  send_email_notification sample_config None w
  = (Ret false, set_clock_reads 1 w).
Proof. reflexivity. Qed.

Lemma transport_failure_keeps_timestamp_witness :
  let w := sample_world ∅ (fun _ => Some Login) (Some 0) (90 * second) in
  let r := send_email_notification sample_config None w in
  r.1 = Ret false /\ last_notification_time (notifier r.2) = Some 0.
Proof.
  intros w r.
  destruct (transport_failure_keeps_timestamp sample_config None w Login)
    as (Hr & Ht & _); [reflexivity|].
  split; [exact Hr | exact Ht].
Defined.

(** An empty array at location 1 cannot be encoded. *)
Lemma encoding_failure_does_not_block_send_witness :
  let w := sample_world {[ 1%positive := [] ]} (fun _ => None) None 0 in
  (send_email_notification sample_config (Some 1%positive) w).1 = Ret true.
Proof.
  intros w.
  apply (encoding_failure_does_not_block_send sample_config 1%positive w);
    reflexivity.
Defined.

Lemma notify_without_email_never_sends_witness :
  let w := sample_world {[ 1%positive := Raster.intruder_scene ]}
             (fun _ => None) None 0 in
  notify email_off_config (Some 1%positive) w = (Ret false, w).
Proof.
  intros w.
  apply (notify_without_email_never_sends email_off_config (Some 1%positive) w);
    reflexivity.
Defined.

(** ** The detector *)

Section CameraProperties.
Context `{cv : OpenCV}.
Variable cfg : Config.t.

Lemma Qgtb_gt (x y : Q) : Qgtb x y = true <-> (y < x)%Q.
Proof.
  unfold Qgtb. change (y < x)%Q with (x > y)%Q. rewrite Qgt_alt.
  destruct (x ?= y)%Q; split; congruence.
Qed.

Lemma significant_iff (c : contour) :
  significant cfg c = true
  <-> (inject_Z (Config.MIN_CONTOUR_AREA cfg) < contourArea c)%Q.
Proof. apply Qgtb_gt. Qed.

(** The [for] loop: the flag, the collected contours and the frame after
    the loop. *)
Lemma scan_contours_eq (frame : loc) (contours : list contour) :
  forall (st : bool * list contour) (img : image) (w : World),
    heap w !! frame = Some img ->
    scan_contours cfg frame contours st w =
    (Ret (st.1 || existsb (significant cfg) contours,
          st.2 ++ filter (fun c => significant cfg c = true) contours),
     set_heap (<[frame := draw_boxes cfg img contours]> (heap w)) w).
Proof.
  induction contours as [|c rest IH]; intros [b acc] img w Hf.
  - cbn. unfold draw_boxes. cbn.
    rewrite orb_false_r, app_nil_r, insert_id, set_heap_same by assumption.
    reflexivity.
  - cbn [scan_contours existsb]. unfold draw_boxes.
    destruct (significant cfg c) eqn:Hc.
    + rewrite filter_cons_True by assumption. cbn [foldl].
      destruct (boundingRect c) as [[[x y] bw] bh] eqn:Hbox.
      rewrite bind_eq. unfold update at 1. rewrite bind_eq.
      unfold load at 1. rewrite Hf. unfold modify at 1.
      erewrite IH by (cbn; apply lookup_insert_eq).
      cbn [fst snd orb heap set_heap]. rewrite insert_insert_eq.
      rewrite orb_true_r, <- app_assoc. cbn [app].
      unfold draw_boxes.
      replace (draw_box img c)
        with (rectangle img (x, y) (x + bw, y + bh) green 2)
        by (unfold draw_box; rewrite Hbox; reflexivity).
      reflexivity.
    + rewrite filter_cons_False by congruence.
      rewrite (IH (b, acc) img w Hf). reflexivity.
Qed.

(** [_detect_motion] on a frame that is in the store: the contours come
    from the frame as read; the frame gets the boxes; the overlay is a copy
    of the boxed frame with the significant contours filled; the processed
    frame is a new array blending the two. *)
Lemma detect_motion_eq (self : MotionDetector) (frame : loc) (img : image)
    (w : World) :
  heap w !! frame = Some img ->
  _detect_motion cfg self frame w =
  let bs_contours := extract_contours (background_subtractor self) img in
  let contours := bs_contours.2 in
  let motion_areas := filter (fun c => significant cfg c = true) contours in
  let boxed := draw_boxes cfg img contours in
  let h1 := <[frame := boxed]> (heap w) in
  let overlay := fresh (dom h1) in
  let h2 := <[overlay := drawContours boxed motion_areas (-1) green (-1)]> h1 in
  let processed := fresh (dom h2) in
  let blended :=
    addWeighted boxed (7 # 10)
      (drawContours boxed motion_areas (-1) green (-1)) (3 # 10) 0 in
  (Ret (set_background_subtractor bs_contours.1 self,
        (existsb (significant cfg) contours, processed)),
   set_heap (<[processed := blended]> h2) w).
Proof.
  intros Hf. unfold _detect_motion.
  rewrite bind_eq. unfold load at 1. rewrite Hf.
  destruct (extract_contours (background_subtractor self) img)
    as [bs contours] eqn:Hex.
  rewrite bind_eq, (scan_contours_eq frame contours (false, []) img w Hf).
  cbn [fst snd orb app]. cbn zeta.
  set (boxed := draw_boxes cfg img contours).
  set (areas := filter _ contours).
  set (h1 := <[frame := boxed]> (heap w)).
  assert (Hf1 : h1 !! frame = Some boxed) by apply lookup_insert_eq.
  assert (Hne : fresh (dom h1) <> frame) by (apply fresh_ne; eauto).
  rewrite bind_eq, (copy_eq frame boxed) by exact Hf1. cbn [heap set_heap].
  set (overlay := fresh (dom h1)).
  rewrite bind_eq, (update_eq overlay _ boxed) by apply lookup_insert_eq.
  cbn [heap set_heap]. rewrite insert_insert_eq.
  set (h2 := <[overlay := _]> h1).
  rewrite bind_eq, (load_eq frame boxed)
    by (cbn; unfold h2; rewrite lookup_insert_ne by exact Hne; exact Hf1).
  rewrite bind_eq, (load_eq overlay (drawContours boxed areas (-1) green (-1)))
    by (cbn; apply lookup_insert_eq).
  reflexivity.
Qed.

(** Without a significant contour nothing is drawn. *)
Lemma draw_boxes_none (img : image) (contours : list contour) :
  existsb (significant cfg) contours = false ->
  draw_boxes cfg img contours = img.
Proof.
  unfold draw_boxes. induction contours as [|c rest IH]; [reflexivity|].
  cbn [existsb]. intros [Hc Hrest]%orb_false_iff.
  rewrite filter_cons_False by congruence. apply IH, Hrest.
Qed.

(** C2: a contour is significant exactly when its area is strictly
    greater than [MIN_CONTOUR_AREA]: not at the threshold itself, and so at
    the threshold plus one.  [_detect_motion] reports motion exactly when
    one of the contours it extracted is above the threshold. *)
Theorem significant_iff_area_above_threshold :
  (forall c : contour,
     (significant cfg c = true
      <-> (inject_Z (Config.MIN_CONTOUR_AREA cfg) < contourArea c)%Q)
     /\ (contourArea c == inject_Z (Config.MIN_CONTOUR_AREA cfg)
         -> significant cfg c = false)%Q
     /\ (contourArea c == inject_Z (Config.MIN_CONTOUR_AREA cfg + 1)
         -> significant cfg c = true)%Q)
  /\ (forall (self : MotionDetector) (frame : loc) (img : image) (w : World),
        heap w !! frame = Some img ->
        exists self' motion_detected processed w',
          _detect_motion cfg self frame w
          = (Ret (self', (motion_detected, processed)), w')
          /\ (motion_detected = true <->
              exists c,
                c ∈ (extract_contours (background_subtractor self) img).2
                /\ (inject_Z (Config.MIN_CONTOUR_AREA cfg) < contourArea c)%Q)).
Proof.
  split.
  - intros c. split; [apply significant_iff|]. split.
    + intros Heq. apply not_true_iff_false. rewrite significant_iff, Heq.
      apply Qlt_irrefl.
    + intros Heq. rewrite significant_iff, Heq, <- Zlt_Qlt. lia.
  - intros self frame img w Hf.
    rewrite (detect_motion_eq self frame img w Hf). cbn zeta.
    eexists _, _, _, _. split; [reflexivity|].
    rewrite existsb_exists. split.
    + intros (c & Hin & Hc). exists c.
      rewrite list_elem_of_In, <- significant_iff. auto.
    + intros (c & Hin & Hc). exists c.
      rewrite <- list_elem_of_In, significant_iff. auto.
Qed.

(** The input frame after [_detect_motion]: the frame as it was, with the
    boxes of the significant contours. *)
Lemma detect_motion_frame_after (self : MotionDetector) (frame : loc)
    (img : image) (w : World) :
  heap w !! frame = Some img ->
  heap (_detect_motion cfg self frame w).2 !! frame
  = Some (draw_boxes cfg img
            (extract_contours (background_subtractor self) img).2).
Proof.
  intros Hf. rewrite (detect_motion_eq self frame img w Hf). cbn zeta.
  cbn [snd heap set_heap].
  set (boxed := draw_boxes cfg img _).
  set (h1 := <[frame := boxed]> (heap w)).
  assert (Hf1 : h1 !! frame = Some boxed) by apply lookup_insert_eq.
  set (h2 := <[fresh (dom h1) := _]> h1).
  assert (Hf2 : h2 !! frame = Some boxed).
  { unfold h2. rewrite lookup_insert_ne by (apply fresh_ne; eauto). exact Hf1. }
  rewrite lookup_insert_ne by (apply fresh_ne; eauto). exact Hf2.
Qed.

(** C5, as the code has it: the processed frame is a new array, distinct
    from the input; every other array is left alone; the input frame holds
    the boxes of the significant contours afterwards, so it is unchanged
    when motion is not detected. *)
Theorem detect_motion_effect_on_input_frame
    (self : MotionDetector) (frame : loc) (img : image) (w : World) :
  heap w !! frame = Some img ->
  exists self' motion_detected processed w',
    _detect_motion cfg self frame w
    = (Ret (self', (motion_detected, processed)), w')
    /\ heap w !! processed = None
    /\ processed <> frame
    /\ is_Some (heap w' !! processed)
    /\ heap w' !! frame
       = Some (draw_boxes cfg img
                 (extract_contours (background_subtractor self) img).2)
    /\ (motion_detected = false -> heap w' !! frame = Some img)
    /\ (forall l, l <> frame -> is_Some (heap w !! l) ->
                  heap w' !! l = heap w !! l).
Proof.
  intros Hf. rewrite (detect_motion_eq self frame img w Hf). cbn zeta.
  set (contours := (extract_contours (background_subtractor self) img).2).
  set (boxed := draw_boxes cfg img contours).
  set (areas := filter _ contours).
  set (h1 := <[frame := boxed]> (heap w)).
  set (overlay := fresh (dom h1)).
  set (h2 := <[overlay := drawContours boxed areas (-1) green (-1)]> h1).
  set (processed := fresh (dom h2)).
  assert (Hsub1 : forall l, is_Some (heap w !! l) -> is_Some (h1 !! l)).
  { intros l Hl. unfold h1. destruct (decide (frame = l)) as [->|Hne].
    - rewrite lookup_insert_eq. eauto.
    - rewrite lookup_insert_ne by exact Hne. exact Hl. }
  assert (Hsub2 : forall l, is_Some (h1 !! l) -> is_Some (h2 !! l)).
  { intros l Hl. unfold h2. destruct (decide (overlay = l)) as [->|Hne].
    - rewrite lookup_insert_eq. eauto.
    - rewrite lookup_insert_ne by exact Hne. exact Hl. }
  assert (Ho : forall l, is_Some (h1 !! l) -> overlay <> l).
  { intros l Hl. apply fresh_ne. exact Hl. }
  assert (Hp : forall l, is_Some (h2 !! l) -> processed <> l).
  { intros l Hl. apply fresh_ne. exact Hl. }
  assert (Hframe : forall l, is_Some (heap w !! l) ->
            (<[processed := addWeighted boxed (7 # 10)
                 (drawContours boxed areas (-1) green (-1)) (3 # 10) 0]> h2) !! l
            = h1 !! l).
  { intros l Hl.
    rewrite lookup_insert_ne by (apply Hp, Hsub2, Hsub1, Hl).
    unfold h2. rewrite lookup_insert_ne by (apply Ho, Hsub1, Hl). reflexivity. }
  eexists _, _, _, _. split; [reflexivity|]. cbn [heap set_heap].
  split.
  { destruct (heap w !! processed) eqn:Hl; [|reflexivity].
    exfalso. apply (Hp processed); [|reflexivity]. apply Hsub2, Hsub1. eauto. }
  split; [apply Hp, Hsub2, Hsub1; eauto|].
  split; [rewrite lookup_insert_eq; eauto|].
  split; [rewrite Hframe by eauto; apply lookup_insert_eq|].
  split.
  - intros Hnone. rewrite Hframe by eauto. unfold h1.
    rewrite lookup_insert_eq. f_equal. apply draw_boxes_none, Hnone.
  - intros l Hne Hl. rewrite Hframe by exact Hl. unfold h1.
    apply lookup_insert_ne. congruence.
Qed.

(** C1, as the code has it: a frame whose number, counted from 1
    ([frame_count] once incremented), is below 30, that is each of the first
    29 frames of a new detector, is shown as it is and the key is polled;
    nothing else happens.  The
    subtractor is not applied, no array is written or created, the clock is
    not read, nothing is printed or sent, and the callback, whatever it is,
    is not called. *)
Theorem warm_up_frames_are_skipped
    (self : MotionDetector) (frame : loc) (img : image) (w : World) :
  frame_count self + 1 < 30 ->
  heap w !! frame = Some img ->
  exists self' c w',
    run_iteration cfg self frame w = (Ret (self', c), w')
    /\ self' = set_frame_count (frame_count self + 1) self
    /\ background_subtractor self' = background_subtractor self
    /\ c = (if decide (Z.land (hd (-1) (keys w)) 255 = 113)
            then Break else Continue)
    /\ w' = set_keys (tail (keys w))
              (set_screen (screen w ++ [("Motion Detector", img)]) w)
    /\ heap w' = heap w /\ stdout w' = stdout w /\ outbox w' = outbox w
    /\ sessions w' = sessions w /\ clock_reads w' = clock_reads w
    /\ notifier w' = notifier w.
Proof.
  intros Hlt Hf. unfold run_iteration. cbn [frame_count set_frame_count].
  destruct (decide (frame_count self + 1 < 30)) as [_|Hge]; [|lia].
  rewrite bind_eq, (imshow_eq _ frame img w Hf).
  unfold poll_quit, waitKey. unfold_M. cbn [keys set_screen].
  destruct (keys w) as [|k ks] eqn:Hk.
  - eexists _, _, _. split; [reflexivity|]. cbn.
    repeat split. destruct w; cbn in *. subst. reflexivity.
  - eexists _, _, _. split; [reflexivity|]. cbn. repeat split.
Qed.

(** The thirtieth frame is the first one that is classified. *)
Lemma thirtieth_frame_is_classified
    (self : MotionDetector) (frame : loc) (img : image) (w : World) :
  frame_count self = 29 ->
  on_motion_detected self = None ->
  heap w !! frame = Some img ->
  exists self' c w',
    run_iteration cfg self frame w = (Ret (self', c), w')
    /\ background_subtractor self'
       = (extract_contours (background_subtractor self) img).1
    /\ clock_reads w' = S (clock_reads w).
Proof.
  intros Hn Hcb Hf. unfold run_iteration. cbn [frame_count set_frame_count].
  destruct (decide (frame_count self + 1 < 30)) as [Hlt|_]; [lia|].
  rewrite bind_eq.
  rewrite (detect_motion_eq (set_frame_count (frame_count self + 1) self)
             frame img w Hf).
  cbn zeta. cbn [background_subtractor set_frame_count on_motion_detected
                 set_background_subtractor].
  rewrite Hcb.
  set (processed := fresh _). set (h3 := <[processed := _]> _).
  rewrite bind_eq, (update_eq processed _ _ _ (lookup_insert_eq _ _ _)).
  cbn [heap set_heap].
  rewrite bind_eq. unfold datetime_now at 1.
  rewrite bind_eq. unfold gets at 1.
  rewrite bind_eq, (update_eq processed _ _ _ (lookup_insert_eq _ _ _)).
  cbn [heap set_heap set_clock_reads].
  rewrite bind_eq, (imshow_eq _ processed _ _ (lookup_insert_eq _ _ _)).
  rewrite bind_eq.
  replace (match existsb (significant cfg) _ with
           | true => mret tt | false => mret tt end)
    with (mret tt : M unit) by (destruct (existsb _ _); reflexivity).
  unfold poll_quit, waitKey. unfold_M.
  cbn [keys set_screen set_heap set_clock_reads].
  destruct (keys w); eexists _, _, _; (split; [reflexivity|]); cbn; auto.
Qed.

(** C8, as the code has it: an explicit camera index 0 is dropped like a
    missing one: the detector takes the configured index, and the argument
    only when the argument is non-zero.  So asking for camera 0 gives camera
    0 exactly when the configured index is 0, and another camera otherwise. *)
Theorem camera_index_zero_is_replaced_by_default
    (callback : option (loc -> M unit)) :
  camera_index (MotionDetector_init cfg (Some 0) callback)
  = Config.CAMERA_INDEX cfg
  /\ camera_index (MotionDetector_init cfg None callback)
     = Config.CAMERA_INDEX cfg
  /\ (forall n, n <> 0 ->
        camera_index (MotionDetector_init cfg (Some n) callback) = n)
  /\ (camera_index (MotionDetector_init cfg (Some 0) callback) = 0
      <-> Config.CAMERA_INDEX cfg = 0).
Proof.
  unfold MotionDetector_init, or_int. cbn.
  repeat split; auto.
  intros n Hn. destruct (decide (n = 0)); [contradiction|reflexivity].
Qed.

End CameraProperties.

(** *** The detector on sample inputs *)

(** The intruder frame yields one contour, of area 600. *)
Lemma intruder_contours :
  (extract_contours (background_subtractor watching_detector)
     Raster.intruder_scene).2 = [(5, 3, 25, 24)].
Proof. vm_compute. reflexivity. Qed.

Lemma intruder_world_frame :
  heap intruder_world !! 1%positive = Some Raster.intruder_scene.
Proof. apply lookup_singleton_eq. Qed.

(** C5 as stated fails: [_detect_motion] on the intruder frame leaves a
    green pixel at the corner of the bounding box in the very array it was
    given, where the frame was white. *)
Lemma detect_motion_draws_on_input_frame :
  let r := _detect_motion sample_config watching_detector 1%positive
             intruder_world in
  heap intruder_world !! 1%positive = Some Raster.intruder_scene
  /\ heap r.2 !! 1%positive <> Some Raster.intruder_scene
  /\ Raster.pixel_at Raster.intruder_scene 3 5 = Some Raster.white
  /\ exists img', heap r.2 !! 1%positive = Some img'
       /\ Raster.pixel_at img' 3 5 = Some green.
Proof.
  intros r.
  assert (Hafter : heap r.2 !! 1%positive
            = Some (draw_boxes sample_config Raster.intruder_scene [(5, 3, 25, 24)])).
  { subst r. rewrite <- intruder_contours.
    apply detect_motion_frame_after, intruder_world_frame. }
  assert (Hpx : Raster.pixel_at
            (draw_boxes sample_config Raster.intruder_scene [(5, 3, 25, 24)]) 3 5
            = Some green) by (vm_compute; reflexivity).
  split; [exact intruder_world_frame|]. split; [|split; [reflexivity|eauto]].
  intros Heq. pose proof (eq_trans (eq_sym Hafter) Heq) as H.
  apply (f_equal (fun o : option Raster.grid =>
                    match o with
                    | Some g => Raster.pixel_at g 3 5
                    | None => None
                    end)) in H.
  cbn beta iota in H. rewrite Hpx in H. vm_compute in H. discriminate.
Qed.

Lemma detect_motion_effect_on_input_frame_witness :
  exists self' motion_detected processed w',
    _detect_motion sample_config watching_detector 1%positive intruder_world
    = (Ret (self', (motion_detected, processed)), w')
    /\ heap intruder_world !! processed = None
    /\ processed <> 1%positive
    /\ heap w' !! 1%positive
       = Some (draw_boxes sample_config Raster.intruder_scene [(5, 3, 25, 24)]).
Proof.
  destruct (detect_motion_effect_on_input_frame sample_config watching_detector
              1%positive Raster.intruder_scene intruder_world intruder_world_frame)
    as (self' & md & processed & w' & Heq & Hnew & Hne & _ & Hafter & _).
  exists self', md, processed, w'. rewrite intruder_contours in Hafter. auto.
Defined.

Lemma warm_up_frames_are_skipped_witness :
  exists w',
    run_iteration sample_config warming_detector 1%positive intruder_world
    = (Ret (set_frame_count 6 warming_detector, Continue), w')
    /\ heap w' = heap intruder_world
    /\ outbox w' = [].
Proof.
  destruct (warm_up_frames_are_skipped sample_config warming_detector 1%positive
              Raster.intruder_scene intruder_world)
    as (self' & c & w' & Heq & -> & _ & -> & _ & Hh & _ & Ho & _);
    [reflexivity | exact intruder_world_frame |].
  exists w'. split; [exact Heq|]. split; [exact Hh | exact Ho].
Defined.

(** * Further properties *)

(** ** Configuration *)

(** [validate] accepts a configuration exactly when one of the two switches
    is off or all three credentials are non-empty. *)
Theorem validate_accepts_iff (cls : Config.t) :
  Config.validate cls = []
  <-> (Config.EMAIL_ENABLED cls && Config.NOTIFICATION_ENABLED cls = false
       \/ (Config.EMAIL_FROM cls <> "" /\ Config.EMAIL_TO cls <> ""
           /\ Config.EMAIL_PASSWORD cls <> "")).
Proof.
  unfold Config.validate.
  destruct (Config.EMAIL_ENABLED cls), (Config.NOTIFICATION_ENABLED cls);
    cbn [andb]; try (split; [intros _; left; reflexivity | reflexivity]).
  destruct (Config.EMAIL_FROM cls), (Config.EMAIL_TO cls),
    (Config.EMAIL_PASSWORD cls); cbn; split;
    try discriminate; try (intros [? | (? & ? & ?)]; congruence).
  intros _. right. repeat split; discriminate.
Qed.

(** Each message is reported exactly when both switches are on and its field
    is empty, and the messages come in the order sender, recipient,
    password. *)
Theorem validate_reports_exactly_the_empty_fields (cls : Config.t) :
  let enabled :=
    Config.EMAIL_ENABLED cls && Config.NOTIFICATION_ENABLED cls = true in
  (Config.err_from ∈ Config.validate cls
   <-> enabled /\ Config.EMAIL_FROM cls = "")
  /\ (Config.err_to ∈ Config.validate cls
      <-> enabled /\ Config.EMAIL_TO cls = "")
  /\ (Config.err_password ∈ Config.validate cls
      <-> enabled /\ Config.EMAIL_PASSWORD cls = "")
  /\ sublist (Config.validate cls)
       [Config.err_from; Config.err_to; Config.err_password].
Proof.
  cbv zeta. unfold Config.validate.
  destruct (Config.EMAIL_ENABLED cls), (Config.NOTIFICATION_ENABLED cls);
    cbn [andb negb];
    [| split_and!; try apply sublist_nil_l;
       (split; [intros []%elem_of_nil | intros [? _]; discriminate]) .. ].
  destruct (Config.EMAIL_FROM cls), (Config.EMAIL_TO cls),
    (Config.EMAIL_PASSWORD cls); cbn; split_and!;
    try (repeat first [ apply sublist_nil_l | apply sublist_skip
                      | apply sublist_cons ]; fail);
    rewrite ?elem_of_cons, ?elem_of_nil;
    (split;
     [ intros H; split; [reflexivity|];
       repeat (destruct H as [H|H]; try discriminate H);
       first [reflexivity | contradiction | discriminate H]
     | intros [_ H]; first [discriminate H | auto 6] ]).
Qed.

(** ** The switches *)

Lemma lower_char_is (c x : ascii) (X : ascii) :
  lower_char X = x -> nat_of_ascii x = (nat_of_ascii X + 32)%nat ->
  ((97 <=? nat_of_ascii x) && (nat_of_ascii x <=? 122))%nat = true ->
  lower_char c = x <-> c = x \/ c = X.
Proof.
  intros HX Hn [Hr1%Nat.leb_le Hr2%Nat.leb_le]%andb_true_iff. split.
  - intros Hc. unfold lower_char in Hc.
    destruct ((65 <=? nat_of_ascii c) && (nat_of_ascii c <=? 90))%nat eqn:Hup.
    + right. apply andb_true_iff in Hup as [H1%Nat.leb_le H2%Nat.leb_le].
      assert (nat_of_ascii c = nat_of_ascii X).
      { apply (f_equal nat_of_ascii) in Hc.
        rewrite nat_ascii_embedding in Hc by lia. lia. }
      rewrite <- (ascii_nat_embedding c), <- (ascii_nat_embedding X). congruence.
    + left. exact Hc.
  - intros [-> | ->]; [|exact HX].
    unfold lower_char.
    destruct ((65 <=? nat_of_ascii x) && (nat_of_ascii x <=? 90))%nat eqn:Hup;
      [|reflexivity].
    apply andb_true_iff in Hup as [H1%Nat.leb_le H2%Nat.leb_le]. lia.
Qed.

(** A switch is on exactly when its variable is unset or holds one of the
    sixteen spellings of [true] in upper and lower case; every other value,
    the empty string included, turns it off. *)
Theorem env_flag_on_iff (env : gmap string string) (name : string) :
  env_flag env name = true
  <-> env !! name = None
      \/ exists a b c d : ascii,
           env !! name = Some (String a (String b (String c (String d ""))))
           /\ (a = "t" \/ a = "T")%char /\ (b = "r" \/ b = "R")%char
           /\ (c = "u" \/ c = "U")%char /\ (d = "e" \/ d = "E")%char.
Proof.
  unfold env_flag, getenv. rewrite String.eqb_eq.
  destruct (env !! name) as [v|]; [|split; auto].
  assert (Ht := fun c => lower_char_is c "t" "T" eq_refl eq_refl eq_refl).
  assert (Hr := fun c => lower_char_is c "r" "R" eq_refl eq_refl eq_refl).
  assert (Hu := fun c => lower_char_is c "u" "U" eq_refl eq_refl eq_refl).
  assert (He := fun c => lower_char_is c "e" "E" eq_refl eq_refl eq_refl).
  split.
  - intros Hv. right.
    destruct v as [|a [|b [|c [|d [|x v]]]]]; try discriminate Hv.
    cbn [lower] in Hv. injection Hv as Ha Hb Hc Hd.
    exists a, b, c, d. rewrite <- Ht, <- Hr, <- Hu, <- He. auto.
  - intros [? | (a & b & c & d & [= ->] & Ha & Hb & Hc & Hd)]; [discriminate|].
    cbn [lower]. apply Ht in Ha. apply Hr in Hb. apply Hu in Hc. apply He in Hd.
    congruence.
Qed.

(** Set but empty, or set to [1], the switch is off; unset, it is on. *)
Lemma env_flag_edge_values (name : string) :
  env_flag ∅ name = true
  /\ env_flag {[ name := "" ]} name = false
  /\ env_flag {[ name := "1" ]} name = false
  /\ env_flag {[ name := "True" ]} name = true.
Proof.
  unfold env_flag, getenv. rewrite lookup_empty, !lookup_singleton_eq.
  repeat split.
Qed.

(** ** The notifier, further *)

Section NotifierFurther.
Context `{cv : OpenCV}.
Variable cfg : Config.t.

(** Seconds against microseconds. *)
Lemma total_seconds_lt (d n : Z) :
  (total_seconds d < inject_Z n)%Q <-> d < n * 1000000.
Proof. unfold total_seconds, Qlt, inject_Z. simpl. rewrite Z.mul_1_r. reflexivity. Qed.

(** What a call that returned [True] leaves behind. *)
Lemma send_true_inv (frame : option loc) (w : World) :
  (send_email_notification cfg frame w).1 = Ret true ->
  Config.EMAIL_ENABLED cfg = true
  /\ Config.NOTIFICATION_ENABLED cfg = true
  /\ wall_clock (send_email_notification cfg frame w).2 = wall_clock w
  /\ exists n, clock_reads (send_email_notification cfg frame w).2 = S n
       /\ notifier (send_email_notification cfg frame w).2
          = mk_notifier (Some (wall_clock w n)).
Proof.
  destruct (Config.EMAIL_ENABLED cfg) eqn:He; cycle 1.
  { rewrite send_when_disabled by (rewrite He; reflexivity). discriminate. }
  destruct (Config.NOTIFICATION_ENABLED cfg) eqn:Hn; cycle 1.
  { rewrite send_when_disabled by (rewrite He, Hn; reflexivity). discriminate. }
  destruct (cooldown_returns cfg w) as [Hc | Hc].
  - rewrite send_gate_closed by assumption. discriminate.
  - destruct (send_open_outcome cfg frame w He Hn Hc)
      as (msg & w3 & _ & (_ & _ & _ & _ & Hclk & _) & ->).
    cbn zeta. destruct (network w (sessions w)) as [[]|]; try discriminate.
    intros _. cbn. rewrite Hclk. repeat split. eexists; split; reflexivity.
Qed.

(** A manager that has never sent is not held back: with both switches on
    and a network that accepts the session, the first call returns [True],
    delivers one message and records a timestamp, whatever the cooldown
    setting and the clock. *)
Theorem first_notification_is_sent (frame : option loc) (w : World) :
  last_notification_time (notifier w) = None ->
  Config.EMAIL_ENABLED cfg = true ->
  Config.NOTIFICATION_ENABLED cfg = true ->
  network w (sessions w) = None ->
  let r := send_email_notification cfg frame w in
  r.1 = Ret true
  /\ (exists msg, outbox r.2 = outbox w ++ [msg])
  /\ is_Some (last_notification_time (notifier r.2)).
Proof.
  intros Hlast He Hn Hnet r.
  assert (Hc : (_is_cooldown_active cfg w).1 = Ret false)
    by (rewrite cooldown_eq, Hlast; reflexivity).
  destruct (send_open_outcome cfg frame w He Hn Hc) as (msg & w3 & _ & _ & Hsend).
  subst r. rewrite Hsend, Hnet. cbn. eauto.
Qed.

(** The cooldown for a setting [N] of at most [2**33] seconds in absolute
    value, in microseconds: after an alert at [t] the check is positive
    exactly when the clock reads less than [t] plus [N] seconds.  So a clock
    that was set back behind [t] keeps the gate closed for any such
    [N >= 0], and with [N <= 0] a clock that did not go back never closes
    it. *)
Theorem cooldown_active_iff (w : World) (t : datetime) :
  cooldown_compares_exactly cfg ->
  last_notification_time (notifier w) = Some t ->
  let now := wall_clock w (clock_reads w) in
  let N := Config.NOTIFICATION_COOLDOWN_SECONDS cfg in
  ((_is_cooldown_active cfg w).1 = Ret true <-> now - t < N * 1000000)
  /\ ((_is_cooldown_active cfg w).1 = Ret false <-> N * 1000000 <= now - t)
  /\ (now < t -> 0 <= N -> (_is_cooldown_active cfg w).1 = Ret true)
  /\ (t <= now -> N <= 0 -> (_is_cooldown_active cfg w).1 = Ret false).
Proof.
  intros _ Hlast now N.
  assert (Hact : (_is_cooldown_active cfg w).1
                 = Ret (Qltb (total_seconds (now - t)) (inject_Z N))).
  { rewrite cooldown_eq, Hlast. reflexivity. }
  clearbody now N.
  assert (Htrue : (_is_cooldown_active cfg w).1 = Ret true
                  <-> now - t < N * 1000000).
  { rewrite Hact, <- total_seconds_lt, <- Qltb_lt.
    split; [intros [= H]; exact H | intros H; f_equal; exact H]. }
  assert (Hfalse : (_is_cooldown_active cfg w).1 = Ret false
                   <-> N * 1000000 <= now - t).
  { rewrite Hact. destruct (Qltb _ _) eqn:Hq.
    - rewrite Qltb_lt, total_seconds_lt in Hq. split; [discriminate | lia].
    - split; [intros _|reflexivity].
      apply Z.le_ngt. rewrite <- total_seconds_lt, <- Qltb_lt. congruence. }
  split; [exact Htrue|]. split; [exact Hfalse|]. split.
  - intros Hback HN. apply Htrue. lia.
  - intros Hfwd HN. apply Hfalse. lia.
Qed.

(** Rate limiting across two calls, for a cooldown of at most [2**33]
    seconds in absolute value: after a call that returned [True], a second
    call whose clock reading is less than the cooldown after the recorded
    timestamp returns [False]; it reads the clock once and opens no
    session. *)
Theorem second_call_within_cooldown_is_suppressed
    (frame1 frame2 : option loc) (w : World) (n : nat) :
  cooldown_compares_exactly cfg ->
  let r1 := send_email_notification cfg frame1 w in
  r1.1 = Ret true ->
  clock_reads r1.2 = S n ->
  wall_clock w (S n) - wall_clock w n
  < Config.NOTIFICATION_COOLDOWN_SECONDS cfg * 1000000 ->
  send_email_notification cfg frame2 r1.2
  = (Ret false, set_clock_reads (S (S n)) r1.2).
Proof.
  intros _ r1 Htrue Hreads Hnear.
  destruct (send_true_inv frame1 w Htrue) as (He & Hn & Hclk & n' & Hreads' & Hnot).
  fold r1 in Hclk, Hreads', Hnot.
  assert (n' = n) as -> by congruence.
  assert (Hlast : last_notification_time (notifier r1.2) = Some (wall_clock w n))
    by (rewrite Hnot; reflexivity).
  assert (Hc : _is_cooldown_active cfg r1.2
               = (Ret true, set_clock_reads (S (S n)) r1.2)).
  { rewrite cooldown_eq, Hlast, Hclk, Hreads. f_equal. f_equal.
    apply Qltb_lt, total_seconds_lt. exact Hnear. }
  rewrite send_gate_closed by (rewrite ?Hc; done). rewrite Hc. reflexivity.
Qed.

(** The step at which the session fails decides whether the message is out:
    a failure of [quit] comes after [send_message], so the message was handed
    over although the call returns [False] and starts no cooldown; a failure
    at any earlier step leaves the outbox as it was. *)
Theorem delivery_depends_on_failing_step
    (frame : option loc) (w : World) (s : smtp_step) :
  Config.EMAIL_ENABLED cfg = true ->
  Config.NOTIFICATION_ENABLED cfg = true ->
  (_is_cooldown_active cfg w).1 = Ret false ->
  network w (sessions w) = Some s ->
  let r := send_email_notification cfg frame w in
  r.1 = Ret false
  /\ notifier r.2 = notifier w
  /\ (s = Quit -> exists msg, outbox r.2 = outbox w ++ [msg])
  /\ (s <> Quit -> outbox r.2 = outbox w).
Proof.
  intros He Hn Hc Hnet r.
  destruct (send_open_outcome cfg frame w He Hn Hc)
    as (msg & w3 & _ & (Hn3 & Ho3 & _) & Hsend).
  subst r. rewrite Hsend, Hnet. cbn zeta.
  destruct s; cbn; repeat split; auto; try discriminate; try congruence.
  intros _. exists msg. reflexivity.
Qed.

Lemma attach_or_warn_succeeds (msg : message) (frame : loc) (img : image)
    (image_bytes : list Byte.byte) (w : World) :
  heap w !! frame = Some img ->
  imencode_jpg img 85 = Some image_bytes ->
  image_subtype_known w image_bytes = true ->
  attach_or_warn msg (Some frame) w =
  (Ret (attach msg
          (MIMEImage image_bytes
             ("motion_"
              +:+ strftime w (wall_clock w (clock_reads w)) "%Y%m%d_%H%M%S"
              +:+ ".jpg"))),
   set_clock_reads (S (clock_reads w)) w).
Proof.
  intros Hf Henc Hknown. unfold attach_or_warn, attach_frame. unfold_M.
  rewrite Hf, Henc, Hknown. reflexivity.
Qed.

(** A frame that encodes: the message delivered is from the configured
    sender to the configured recipient and has two parts, the text and then
    the JPEG bytes of the frame as it is in the store at that moment; no
    warning is printed. *)
Theorem encoded_frame_is_attached
    (frame : loc) (img : image) (image_bytes : list Byte.byte) (w : World) :
  Config.EMAIL_ENABLED cfg = true ->
  Config.NOTIFICATION_ENABLED cfg = true ->
  (_is_cooldown_active cfg w).1 = Ret false ->
  heap w !! frame = Some img ->
  imencode_jpg img 85 = Some image_bytes ->
  image_subtype_known w image_bytes = true ->
  network w (sessions w) = None ->
  let r := send_email_notification cfg (Some frame) w in
  r.1 = Ret true
  /\ stdout r.2 = stdout w
  /\ exists subject body filename,
       outbox r.2
       = outbox w
         ++ [mk_message (Config.EMAIL_FROM cfg) (Config.EMAIL_TO cfg) subject
               [MIMEText body "plain"; MIMEImage image_bytes filename]].
Proof.
  intros He Hn Hc Hf Henc Hknown Hnet r.
  destruct (send_open_outcome cfg (Some frame) w He Hn Hc)
    as (msg & w3 & Hatt & _ & Hsend).
  destruct (cooldown_untouched cfg w)
    as ((_ & _ & _ & _ & _ & Hh1 & _) & Hout1 & _ & Hk1).
  set (w1 := (_is_cooldown_active cfg w).2) in *.
  rewrite (attach_or_warn_succeeds _ frame img image_bytes) in Hatt
    by (cbn; rewrite ?Hh1, ?Hk1; assumption).
  injection Hatt as <- <-.
  subst r. rewrite Hsend, Hnet. cbn. rewrite Hout1.
  split; [reflexivity|]. split; [reflexivity|]. eexists _, _, _. reflexivity.
Qed.

(** The reach of a call, for every configuration, frame and world. *)
Lemma send_reach (frame : option loc) (w : World) :
  let r := send_email_notification cfg frame w in
  (exists b, r.1 = Ret b)
  /\ heap r.2 = heap w /\ screen r.2 = screen w /\ keys r.2 = keys w
  /\ ((sessions r.2 = sessions w /\ outbox r.2 = outbox w)
      \/ (sessions r.2 = S (sessions w)
          /\ (outbox r.2 = outbox w \/ exists msg, outbox r.2 = outbox w ++ [msg]))).
Proof.
  intros r.
  assert (Hidle : forall w0, heap w0 = heap w -> screen w0 = screen w ->
            keys w0 = keys w -> sessions w0 = sessions w -> outbox w0 = outbox w ->
            r = (Ret false, w0) ->
            (exists b, r.1 = Ret b)
            /\ heap r.2 = heap w /\ screen r.2 = screen w /\ keys r.2 = keys w
            /\ ((sessions r.2 = sessions w /\ outbox r.2 = outbox w)
                \/ (sessions r.2 = S (sessions w)
                    /\ (outbox r.2 = outbox w
                        \/ exists msg, outbox r.2 = outbox w ++ [msg])))).
  { intros w0 ? ? ? ? ? ->. cbn. eauto 10. }
  destruct (Config.EMAIL_ENABLED cfg) eqn:He; cycle 1.
  { apply (Hidle w); auto. apply send_when_disabled. rewrite He. reflexivity. }
  destruct (Config.NOTIFICATION_ENABLED cfg) eqn:Hn; cycle 1.
  { apply (Hidle w); auto. apply send_when_disabled. rewrite He, Hn. reflexivity. }
  assert (Hw1 : screen (_is_cooldown_active cfg w).2 = screen w
                /\ keys (_is_cooldown_active cfg w).2 = keys w).
  { rewrite cooldown_eq. destruct (last_notification_time _); auto. }
  destruct (cooldown_untouched cfg w)
    as ((_ & Ho1 & Hs1 & _ & _ & Hh1 & _) & _).
  destruct (cooldown_returns cfg w) as [Hc | Hc].
  - apply (Hidle (_is_cooldown_active cfg w).2); try tauto.
    apply send_gate_closed; assumption.
  - clear Hidle.
    destruct (send_open_outcome cfg frame w He Hn Hc)
      as (msg & w3 & Hatt & (_ & Ho3 & Hs3 & _ & _ & Hh3 & _) & Hsend).
    assert (Hw3 : screen w3 = screen w /\ keys w3 = keys w).
    { destruct Hw1 as [Hscr Hkeys].
      unfold attach_or_warn, attach_frame in Hatt. unfold_M.
      destruct frame as [frame|]; [|injection Hatt as _ <-; cbn; auto].
      cbn [heap set_clock_reads] in Hatt.
      destruct (heap _ !! frame) as [img|];
        [|injection Hatt as _ <-; cbn; auto].
      destruct (imencode_jpg img 85) as [b|];
        [|injection Hatt as _ <-; cbn; auto].
      cbn [image_subtype_known set_clock_reads] in Hatt.
      destruct (image_subtype_known _ b); injection Hatt as _ <-; cbn; auto. }
    destruct Hw3 as [Hscr3 Hkeys3].
    subst r. rewrite Hsend. cbn zeta.
    destruct (network w (sessions w)) as [[]|]; cbn;
      rewrite ?Hh3, ?Hscr3, ?Hkeys3, ?Ho3, ?Hs3; split_and!; eauto 10.
Qed.

(** What a call can touch, for every configuration, frame and world: never
    the store of arrays, the screen or the pending keys; at most one SMTP
    session; at most one message, and none without a session; and it always
    returns. *)
Theorem send_footprint (frame : option loc) (w : World) :
  let r := send_email_notification cfg frame w in
  (exists b, r.1 = Ret b)
  /\ heap r.2 = heap w /\ screen r.2 = screen w /\ keys r.2 = keys w
  /\ ((sessions r.2 = sessions w /\ outbox r.2 = outbox w)
      \/ (sessions r.2 = S (sessions w)
          /\ (outbox r.2 = outbox w \/ exists msg, outbox r.2 = outbox w ++ [msg]))).
Proof. exact (send_reach frame w). Qed.

(** [notify] returns, and leaves the pending keys alone. *)
Lemma notify_returns (frame : option loc) (w : World) :
  exists b w', notify cfg frame w = (Ret b, w') /\ keys w' = keys w.
Proof.
  unfold notify.
  destruct (Config.NOTIFICATION_ENABLED cfg); cbn [negb];
    [|eexists _, _; split; reflexivity].
  destruct (Config.EMAIL_ENABLED cfg); [|eexists _, _; split; reflexivity].
  destruct (send_reach frame w) as ([b Hb] & _ & _ & Hk & _).
  rewrite !bind_eq.
  destruct (send_email_notification cfg frame w) as [r w']. cbn in Hb, Hk.
  subst r. eexists _, _. split; [reflexivity|]. exact Hk.
Qed.

Lemma notify_send_eq (frame : option loc) (w : World) :
  notify cfg frame w = send_email_notification cfg frame w.
Proof.
  unfold notify.
  destruct (Config.NOTIFICATION_ENABLED cfg) eqn:Hn; cbn [negb].
  - destruct (Config.EMAIL_ENABLED cfg) eqn:He.
    + rewrite !bind_eq.
      destruct (send_email_notification cfg frame w) as [[b|e] w']; [|reflexivity].
      cbn. rewrite orb_false_r. reflexivity.
    + rewrite send_when_disabled by (rewrite He; reflexivity). reflexivity.
  - rewrite send_when_disabled by (rewrite Hn; apply andb_false_r). reflexivity.
Qed.

(** [notify] adds nothing to [send_email_notification]: for every
    configuration, frame and world the two do the same. *)
Theorem notify_is_send_email_notification (frame : option loc) (w : World) :
  notify cfg frame w = send_email_notification cfg frame w.
Proof. exact (notify_send_eq frame w). Qed.

End NotifierFurther.

(** ** The detector, further *)

Section CameraFurther.
Context `{cv : OpenCV}.
Variable cfg : Config.t.

Lemma poll_quit_eq (w : World) :
  poll_quit w
  = (Ret (if quit_requested w then Break else Continue),
     set_keys (tail (keys w)) w).
Proof.
  unfold poll_quit, waitKey, quit_requested. unfold_M.
  destruct (keys w) as [|k ks] eqn:Hk; cbn [hd tail].
  - rewrite <- Hk, set_keys_same. destruct (decide _) as [H|H];
      [rewrite bool_decide_eq_true_2 by exact H
      |rewrite bool_decide_eq_false_2 by exact H]; reflexivity.
  - destruct (decide _) as [H|H];
      [rewrite bool_decide_eq_true_2 by exact H
      |rewrite bool_decide_eq_false_2 by exact H]; reflexivity.
Qed.


(** A frame in the warm-up. *)
Lemma run_iteration_warm_eq (self : MotionDetector) (frame : loc)
    (img : image) (w : World) :
  frame_count self + 1 < 30 ->
  heap w !! frame = Some img ->
  run_iteration cfg self frame w
  = (let w1 := set_screen (screen w ++ [("Motion Detector", img)]) w in
     (Ret (set_frame_count (frame_count self + 1) self,
           if quit_requested w1 then Break else Continue),
      set_keys (tail (keys w1)) w1)).
Proof.
  intros Hlt Hf. unfold run_iteration. cbn [frame_count set_frame_count].
  destruct (decide (frame_count self + 1 < 30)) as [_|Hge]; [|lia].
  rewrite bind_eq, (imshow_eq _ frame img w Hf).
  rewrite bind_eq, poll_quit_eq. reflexivity.
Qed.

(** A frame past the warm-up, up to the point where the callback may be
    called. *)
Lemma run_iteration_classified_eq (self : MotionDetector) (frame : loc)
    (img : image) (w : World) :
  ~ frame_count self + 1 < 30 ->
  heap w !! frame = Some img ->
  run_iteration cfg self frame w
  = ((match motion_in cfg self img, on_motion_detected self with
      | true, Some callback => callback frame
      | _, _ => mret tt
      end;;
      c ← poll_quit;
      mret (set_background_subtractor
              (extract_contours (background_subtractor self) img).1
              (set_frame_count (frame_count self + 1) self), c))
       (classified_world cfg self frame img w)).
Proof.
  intros Hge Hf. unfold run_iteration. cbn [frame_count set_frame_count].
  destruct (decide (frame_count self + 1 < 30)) as [Hlt|_]; [contradiction|].
  rewrite bind_eq.
  rewrite (detect_motion_eq cfg (set_frame_count (frame_count self + 1) self)
             frame img w Hf).
  cbn zeta. cbn [background_subtractor set_frame_count on_motion_detected
                 set_background_subtractor].
  rewrite bind_eq, (update_eq _ _ _ _ (lookup_insert_eq _ _ _)).
  cbn [heap set_heap]. rewrite insert_insert_eq.
  rewrite bind_eq. unfold datetime_now at 1.
  rewrite bind_eq. unfold gets at 1.
  rewrite bind_eq, (update_eq _ _ _ _ (lookup_insert_eq _ _ _)).
  cbn [heap set_heap set_clock_reads]. rewrite insert_insert_eq.
  rewrite bind_eq, (imshow_eq _ _ _ _ (lookup_insert_eq _ _ _)).
  reflexivity.
Qed.

Lemma classified_world_frame (self : MotionDetector) (frame : loc)
    (img : image) (w : World) :
  heap w !! frame = Some img ->
  heap (classified_world cfg self frame img w) !! frame
  = Some (boxed_image cfg self img).
Proof.
  intros Hf. unfold classified_world, classified_store, processed_loc,
    overlay_loc. cbn [heap set_screen set_clock_reads set_heap].
  set (boxed := boxed_image cfg self img).
  set (h1 := <[frame := boxed]> (heap w)).
  assert (Hf1 : h1 !! frame = Some boxed) by apply lookup_insert_eq.
  set (h2 := <[fresh (dom h1) := _]> h1).
  assert (Hf2 : h2 !! frame = Some boxed).
  { unfold h2. rewrite lookup_insert_ne by (apply fresh_ne; eauto). exact Hf1. }
  rewrite lookup_insert_ne by (apply fresh_ne; eauto). exact Hf2.
Qed.

(** The evidence handed to the callback.  Past the warm-up, when motion is
    detected the callback is called once, with the location of the input
    frame, at a point where that array holds the frame with the bounding
    boxes drawn (not the blended and annotated frame that is shown); when no
    motion is detected the callback is not called. *)
Theorem callback_gets_the_boxed_input_frame
    (self : MotionDetector) (frame : loc) (img : image) (w : World)
    (callback : loc -> M unit) :
  ~ frame_count self + 1 < 30 ->
  heap w !! frame = Some img ->
  on_motion_detected self = Some callback ->
  let w1 := classified_world cfg self frame img w in
  let self' :=
    set_background_subtractor
      (extract_contours (background_subtractor self) img).1
      (set_frame_count (frame_count self + 1) self) in
  heap w1 !! frame = Some (boxed_image cfg self img)
  /\ (motion_in cfg self img = true ->
      run_iteration cfg self frame w
      = (callback frame;; c ← poll_quit; mret (self', c)) w1)
  /\ (motion_in cfg self img = false ->
      run_iteration cfg self frame w = (c ← poll_quit; mret (self', c)) w1).
Proof.
  intros Hge Hf Hcb w1 self'.
  split; [apply classified_world_frame, Hf|].
  rewrite (run_iteration_classified_eq self frame img w Hge Hf), Hcb.
  split; intros ->; reflexivity.
Qed.

(** One iteration with a callback that returns: it returns, the frame
    counter goes up by one, and the device, the switch and the callback are
    as before. *)
Lemma run_iteration_returns (self : MotionDetector) (frame : loc)
    (img : image) (w : World) :
  for_callback callback_returns self ->
  heap w !! frame = Some img ->
  exists self' c w',
    run_iteration cfg self frame w = (Ret (self', c), w')
    /\ frame_count self' = frame_count self + 1
    /\ cap self' = cap self /\ running self' = running self
    /\ on_motion_detected self' = on_motion_detected self.
Proof.
  intros Hcb Hf.
  destruct (decide (frame_count self + 1 < 30)) as [Hlt|Hge].
  - rewrite (run_iteration_warm_eq self frame img w Hlt Hf). cbn zeta.
    eexists _, _, _. split; [reflexivity|]. cbn. auto.
  - rewrite (run_iteration_classified_eq self frame img w Hge Hf).
    set (w1 := classified_world cfg self frame img w).
    assert (Hstep : exists w2,
              (match motion_in cfg self img, on_motion_detected self with
               | true, Some callback => callback frame
               | _, _ => mret tt
               end) w1 = (Ret tt, w2)).
    { unfold for_callback in Hcb.
      destruct (motion_in cfg self img), (on_motion_detected self) as [cb|];
        try (eexists; reflexivity).
      apply Hcb. }
    destruct Hstep as [w2 Hstep].
    rewrite bind_eq, Hstep, bind_eq, poll_quit_eq.
    eexists _, _, _. split; [reflexivity|]. cbn. auto.
Qed.


Lemma bind_alloc {B} (img : image) (f : loc -> M B) (w : World) :
  (alloc img ≫= f) w = f (fresh (dom (heap w))) (alloc img w).2.
Proof. reflexivity. Qed.

Lemma alloc_lookup (img : image) (w : World) :
  heap (alloc img w).2 !! fresh (dom (heap w)) = Some img.
Proof. cbn. apply lookup_insert_eq. Qed.


(** With a callback that returns the loop returns. *)
Lemma run_loop_returns (feed : list image) :
  forall (self : MotionDetector) (w : World),
    for_callback callback_returns self ->
    exists self' w', run_loop cfg feed self w = (Ret self', w').
Proof.
  induction feed as [|img feed IH]; intros self w Hcb.
  - cbn [run_loop]. destruct (running self); eexists _, _; reflexivity.
  - cbn [run_loop]. destruct (running self); [|eexists _, _; reflexivity].
    rewrite bind_alloc.
    destruct (run_iteration_returns self _ img (alloc img w).2 Hcb
                (alloc_lookup img w))
      as (self1 & c & w1 & Heq & _ & _ & _ & Hcb1).
    rewrite bind_eq, Heq. destruct c; [|eexists _, _; reflexivity].
    apply IH. unfold for_callback in *. rewrite Hcb1. exact Hcb.
Qed.


(** One iteration with a callback that returns and keeps the keys: the
    control is decided by the key that was pending when the frame was read,
    and that key is consumed. *)
Lemma run_iteration_control (self : MotionDetector) (frame : loc)
    (img : image) (w : World) :
  for_callback callback_returns self ->
  for_callback callback_keeps_keys self ->
  heap w !! frame = Some img ->
  exists self' w',
    run_iteration cfg self frame w
    = (Ret (self', if quit_requested w then Break else Continue), w')
    /\ keys w' = tail (keys w)
    /\ frame_count self' = frame_count self + 1
    /\ running self' = running self
    /\ on_motion_detected self' = on_motion_detected self.
Proof.
  intros Hret Hkeys Hf.
  destruct (decide (frame_count self + 1 < 30)) as [Hlt|Hge].
  - rewrite (run_iteration_warm_eq self frame img w Hlt Hf). cbn zeta.
    eexists _, _. split; [reflexivity|]. cbn. auto.
  - rewrite (run_iteration_classified_eq self frame img w Hge Hf).
    set (w1 := classified_world cfg self frame img w).
    assert (Hstep : exists w2,
              (match motion_in cfg self img, on_motion_detected self with
               | true, Some callback => callback frame
               | _, _ => mret tt
               end) w1 = (Ret tt, w2) /\ keys w2 = keys w).
    { unfold for_callback in Hret, Hkeys.
      destruct (motion_in cfg self img), (on_motion_detected self) as [cb|];
        try (eexists; split; reflexivity).
      destruct (Hret frame w1) as [w2 Heq]. exists w2. split; [exact Heq|].
      specialize (Hkeys frame w1). rewrite Heq in Hkeys. exact Hkeys. }
    destruct Hstep as (w2 & Hstep & Hk2).
    rewrite bind_eq, Hstep, bind_eq, poll_quit_eq.
    eexists _, _. split.
    { unfold quit_requested. rewrite Hk2. reflexivity. }
    cbn [keys set_keys frame_count running on_motion_detected
         set_background_subtractor set_frame_count].
    auto.
Qed.



(** A detector that is not open reads no frame: [run] on a detector that
    was never started, that was stopped, or whose [start] failed prints the
    complaint and returns the detector as it is.  [stop] twice is [stop]
    once. *)
Theorem unstarted_detector_reads_no_frame (feed : list image)
    (self : MotionDetector) (w : World) :
  (cap self = None ->
   run cfg feed self w = (Ret self, set_stdout (stdout w ++ [not_started]) w))
  /\ run cfg feed (stop self) w
     = (Ret (stop self), set_stdout (stdout w ++ [not_started]) w)
  /\ stop (stop self) = stop self
  /\ (camera_present w (camera_index self) = false ->
      exists self1 w1,
        start self w = (Ret (false, self1), w1)
        /\ running self1 = running self
        /\ frame_count self1 = frame_count self
        /\ run cfg feed self1 w1
           = (Ret self1, set_stdout (stdout w1 ++ [not_started]) w1)).
Proof.
  split; [intros Hcap; unfold run; rewrite Hcap; reflexivity|].
  split; [unfold run, stop; cbn [cap set_running];
          destruct (cap self) eqn:Hc; cbn [cap set_running set_cap isOpened];
          rewrite ?Hc; reflexivity|].
  split; [unfold stop; cbn [cap set_running];
          destruct (cap self) eqn:Hc; cbn; rewrite ?Hc; reflexivity|].
  intros Habsent. unfold start. unfold_M. rewrite Habsent. cbn.
  eexists _, _. split; [reflexivity|]. repeat split.
Qed.

(** While every frame of the feed is in the warm-up, the loop classifies
    nothing, whatever the callback: the subtractor, the outbox, the SMTP
    sessions, the clock and the notifier are as before. *)
Lemma run_loop_during_warm_up (feed : list image) :
  forall (self : MotionDetector) (w : World),
    frame_count self + Z.of_nat (length feed) < 30 ->
    exists self' w',
      run_loop cfg feed self w = (Ret self', w')
      /\ background_subtractor self' = background_subtractor self
      /\ outbox w' = outbox w /\ sessions w' = sessions w
      /\ clock_reads w' = clock_reads w /\ notifier w' = notifier w.
Proof.
  induction feed as [|img feed IH]; intros self w Hlt.
  - cbn [run_loop]. destruct (running self); eexists _, _;
      (split; [reflexivity|]); cbn; auto.
  - cbn [run_loop]. destruct (running self);
      [|eexists _, _; (split; [reflexivity|]); cbn; auto].
    cbn [length] in Hlt. rewrite bind_alloc, bind_eq.
    rewrite (run_iteration_warm_eq self _ img (alloc img w).2)
      by (first [lia | apply alloc_lookup]).
    cbn zeta. destruct (quit_requested _).
    + eexists _, _. split; [reflexivity|]. cbn. auto.
    + match goal with
      | |- context [run_loop cfg feed ?s ?w0] =>
          destruct (IH s w0) as (self' & w' & Heq & Hbs & Ho & Hs & Hc & Hn)
      end.
      { cbn [frame_count set_frame_count]. lia. }
      exists self', w'. split; [exact Heq|]. cbn in Hbs, Ho, Hs, Hc, Hn. auto.
Qed.

(** The subtractor after an iteration that returns: untouched in the
    warm-up, applied to the frame past it. *)
Lemma run_iteration_subtractor (self self' : MotionDetector) (frame : loc)
    (img : image) (w : World) (c : control) :
  heap w !! frame = Some img ->
  (run_iteration cfg self frame w).1 = Ret (self', c) ->
  background_subtractor self'
  = if decide (frame_count self + 1 < 30) then background_subtractor self
    else (extract_contours (background_subtractor self) img).1.
Proof.
  intros Hf.
  destruct (decide (frame_count self + 1 < 30)) as [Hlt|Hge].
  - rewrite (run_iteration_warm_eq self frame img w Hlt Hf). cbn zeta.
    intros [= <- _]. reflexivity.
  - rewrite (run_iteration_classified_eq self frame img w Hge Hf).
    rewrite bind_eq.
    destruct (match motion_in cfg self img, on_motion_detected self with
              | true, Some callback => callback frame
              | _, _ => mret tt
              end (classified_world cfg self frame img w)) as [[[]|e] w2];
      [|discriminate].
    rewrite bind_eq, poll_quit_eq. intros [= <- _]. reflexivity.
Qed.

(** A detector that has counted [29 - length feed] frames, with no key
    pressed: after the frames of [feed] the next frame is the thirtieth, and
    the subtractor is applied to it. *)
Lemma run_loop_reaches_the_thirtieth (feed : list image) (img : image) :
  forall (self : MotionDetector) (w : World),
    running self = true ->
    keys w = [] ->
    for_callback callback_returns self ->
    for_callback callback_keeps_keys self ->
    frame_count self + Z.of_nat (length feed) = 29 ->
    exists self' w',
      run_loop cfg (feed ++ [img]) self w = (Ret self', w')
      /\ background_subtractor self'
         = (extract_contours (background_subtractor self) img).1.
Proof.
  induction feed as [|first feed IH]; intros self w Hrun Hk Hret Hkeys Hcount.
  - cbn [length] in Hcount. cbn [app run_loop]. rewrite Hrun, bind_alloc.
    destruct (run_iteration_control self _ img (alloc img w).2 Hret Hkeys
                (alloc_lookup img w))
      as (self1 & w1 & Heq & Hk1 & Hfc & Hr1 & Hcb1).
    pose proof (run_iteration_subtractor self self1 _ img (alloc img w).2 _
                  (alloc_lookup img w) (f_equal fst Heq)) as Hbs.
    destruct (decide (frame_count self + 1 < 30)) as [Hlt|_]; [lia|].
    rewrite bind_eq, Heq.
    assert (Hq : quit_requested (alloc img w).2 = false).
    { unfold quit_requested. cbn [alloc snd keys set_heap]. rewrite Hk.
      reflexivity. }
    rewrite Hq. cbn [run_loop]. rewrite Hr1, Hrun.
    eexists _, _. split; [reflexivity | exact Hbs].
  - cbn [length] in Hcount. cbn [app run_loop]. rewrite Hrun, bind_alloc.
    destruct (run_iteration_control self _ first (alloc first w).2 Hret
                Hkeys (alloc_lookup first w))
      as (self1 & w1 & Heq & Hk1 & Hfc & Hr1 & Hcb1).
    pose proof (run_iteration_subtractor self self1 _ first (alloc first w).2 _
                  (alloc_lookup first w) (f_equal fst Heq)) as Hbs.
    destruct (decide (frame_count self + 1 < 30)) as [_|Hge]; [|lia].
    rewrite bind_eq, Heq.
    assert (Hq : quit_requested (alloc first w).2 = false).
    { unfold quit_requested. cbn [alloc snd keys set_heap]. rewrite Hk.
      reflexivity. }
    rewrite Hq.
    destruct (IH self1 w1) as (self' & w' & Hloop & Hbs').
    + congruence.
    + rewrite Hk1. cbn [alloc snd keys set_heap]. rewrite Hk. reflexivity.
    + unfold for_callback in *. rewrite Hcb1. exact Hret.
    + unfold for_callback in *. rewrite Hcb1. exact Hkeys.
    + lia.
    + exists self', w'. split; [exact Hloop|]. rewrite Hbs', Hbs. reflexivity.
Qed.

End CameraFurther.

(** ** The program *)

Section MainProperties.
Context `{cv : OpenCV}.
Variable cfg : Config.t.

Lemma set_stdout_same (w : World) : set_stdout (stdout w) w = w.
Proof. destruct w; reflexivity. Qed.

Lemma print_errors_eq (errors : list string) :
  forall w : World,
    print_errors errors w
    = (Ret tt, set_stdout (stdout w ++ ((fun e => "  - " +:+ e) <$> errors)) w).
Proof.
  induction errors as [|e errors IH]; intros w.
  - cbn. rewrite app_nil_r, set_stdout_same. reflexivity.
  - cbn [print_errors]. rewrite bind_eq. unfold print at 1, modify.
    rewrite IH. cbn [stdout set_stdout fmap list_fmap].
    rewrite <- app_assoc. reflexivity.
Qed.

Lemma main_callback_returns :
  callback_returns (on_motion_detected_callback cfg).
Proof.
  intros l w. unfold on_motion_detected_callback.
  destruct (notify_returns cfg (Some l) w) as (b & w' & Heq & _).
  rewrite bind_eq, Heq. eexists. reflexivity.
Qed.

Lemma main_callback_keeps_keys :
  callback_keeps_keys (on_motion_detected_callback cfg).
Proof.
  intros l w. unfold on_motion_detected_callback.
  destruct (notify_returns cfg (Some l) w) as (b & w' & Heq & Hk).
  rewrite bind_eq, Heq. exact Hk.
Qed.

Lemma main_valid_eq (feed : list image) (w : World) :
  Config.validate cfg = [] ->
  camera_present w (Config.CAMERA_INDEX cfg) = true ->
  main cfg feed w =
  match run cfg feed (started_detector cfg) (set_notifier NotificationManager_init w) with
  | (Ret _, w') => (Ret Returned, w')
  | (Raise e, w') =>
      (Ret (Exit 1), set_stdout (stdout w' ++ ["Error: " +:+ str_exn e]) w')
  end.
Proof.
  intros Hv Hcam. unfold main. rewrite Hv.
  unfold try_except, start. unfold_M.
  cbn [camera_present set_notifier camera_index MotionDetector_init or_int
       set_cap].
  rewrite Hcam. cbn [negb]. fold (started_detector cfg).
  destruct (run cfg feed (started_detector cfg) _) as [[d|e] w']; reflexivity.
Qed.

(** An invalid configuration ends the program before anything else
    happens: [main] exits with status 1 after printing the heading, one line
    per error in the order of [validate], and the hint; the camera is not
    opened, no notifier is created and nothing else in the world changes. *)
Theorem main_rejects_invalid_configuration (feed : list image) (w : World) :
  Config.validate cfg <> [] ->
  main cfg feed w
  = (Ret (Exit 1),
     set_stdout
       (stdout w
        ++ ["Configuration errors:"]
        ++ ((fun e => "  - " +:+ e) <$> Config.validate cfg)
        ++ [nl +:+ "Please check your .env file configuration."]) w).
Proof.
  intros Hne. unfold main.
  destruct (Config.validate cfg) as [|e errors] eqn:Hv; [contradiction|].
  rewrite bind_eq. unfold print at 1, modify.
  rewrite bind_eq, print_errors_eq. cbn [stdout set_stdout].
  rewrite bind_eq. unfold print, modify. cbn [stdout set_stdout].
  unfold mret, M_ret. rewrite <- !app_assoc. reflexivity.
Qed.

(** A valid configuration but no camera: [main] creates the notifier,
    prints the two complaints and exits with status 1; no frame is read. *)
Theorem main_without_camera (feed : list image) (w : World) :
  Config.validate cfg = [] ->
  camera_present w (Config.CAMERA_INDEX cfg) = false ->
  main cfg feed w
  = (Ret (Exit 1),
     set_stdout
       (stdout w
        ++ ["Error: Could not open camera " +:+ pretty (Config.CAMERA_INDEX cfg);
            "Failed to start camera. Exiting."])
       (set_notifier NotificationManager_init w)).
Proof.
  intros Hv Hcam. unfold main. rewrite Hv.
  unfold try_except, start. unfold_M.
  cbn [camera_present set_notifier camera_index MotionDetector_init or_int
       set_cap].
  rewrite Hcam. cbn. rewrite <- app_assoc. reflexivity.
Qed.

(** With a valid configuration and a camera, [main] comes back by
    returning, whatever the keys, the clock and the SMTP server do, on every
    feed of frames that the OpenCV operations accept (those of the interface
    are total). *)
Theorem main_survives_notification_failures (feed : list image) (w : World) :
  Config.validate cfg = [] ->
  camera_present w (Config.CAMERA_INDEX cfg) = true ->
  (main cfg feed w).1 = Ret Returned.
Proof.
  intros Hv Hcam. rewrite (main_valid_eq feed w Hv Hcam).
  unfold run, started_detector. cbn [cap set_running set_cap isOpened].
  fold (started_detector cfg).
  destruct (run_loop_returns cfg feed (started_detector cfg)
              (set_notifier NotificationManager_init w))
    as (self' & w' & Heq).
  { unfold for_callback. cbn. apply main_callback_returns. }
  rewrite bind_eq, Heq. reflexivity.
Qed.

(** A feed of fewer than 30 frames never alerts: [main] returns without
    having opened an SMTP session, sent a message or read the clock, and the
    notifier is as created. *)
Theorem main_short_feed_sends_nothing (feed : list image) (w : World) :
  Config.validate cfg = [] ->
  camera_present w (Config.CAMERA_INDEX cfg) = true ->
  (length feed < 30)%nat ->
  let r := main cfg feed w in
  r.1 = Ret Returned
  /\ outbox r.2 = outbox w /\ sessions r.2 = sessions w
  /\ clock_reads r.2 = clock_reads w
  /\ notifier r.2 = NotificationManager_init.
Proof.
  intros Hv Hcam Hlen r. subst r. rewrite (main_valid_eq feed w Hv Hcam).
  unfold run, started_detector. cbn [cap set_running set_cap isOpened].
  fold (started_detector cfg).
  destruct (run_loop_during_warm_up cfg feed (started_detector cfg)
              (set_notifier NotificationManager_init w))
    as (self' & w' & Heq & _ & Ho & Hs & Hc & Hn).
  { cbn. lia. }
  rewrite bind_eq, Heq. cbn. auto.
Qed.

(** The alert and its evidence, end to end.  Past the warm-up, with the
    callback of [main], both switches on, a notifier that has not sent yet
    and a server that accepts: a frame with motion puts one message in the
    outbox, from the configured sender to the configured recipient, whose
    attachment is the JPEG of the input frame with the bounding boxes drawn
    on it, and the notifier records a timestamp. *)
Theorem alert_carries_the_boxed_frame
    (self : MotionDetector) (frame : loc) (img : image)
    (image_bytes : list Byte.byte) (w : World) :
  on_motion_detected self = Some (on_motion_detected_callback cfg) ->
  ~ frame_count self + 1 < 30 ->
  heap w !! frame = Some img ->
  motion_in cfg self img = true ->
  Config.EMAIL_ENABLED cfg = true ->
  Config.NOTIFICATION_ENABLED cfg = true ->
  last_notification_time (notifier w) = None ->
  imencode_jpg (boxed_image cfg self img) 85 = Some image_bytes ->
  image_subtype_known w image_bytes = true ->
  network w (sessions w) = None ->
  exists self' c w',
    run_iteration cfg self frame w = (Ret (self', c), w')
    /\ is_Some (last_notification_time (notifier w'))
    /\ exists subject body filename,
         outbox w'
         = outbox w
           ++ [mk_message (Config.EMAIL_FROM cfg) (Config.EMAIL_TO cfg) subject
                 [MIMEText body "plain"; MIMEImage image_bytes filename]].
Proof.
  intros Hcb Hge Hf Hmotion He Hn Hlast Henc Hknown Hnet.
  rewrite (run_iteration_classified_eq cfg self frame img w Hge Hf).
  rewrite Hcb, Hmotion.
  set (w1 := classified_world cfg self frame img w).
  assert (Hf1 : heap w1 !! frame = Some (boxed_image cfg self img))
    by apply (classified_world_frame cfg self frame img w Hf).
  assert (Hcool : _is_cooldown_active cfg w1 = (Ret false, w1)).
  { rewrite cooldown_eq. cbn [notifier w1 classified_world set_screen
      set_clock_reads set_heap]. rewrite Hlast. reflexivity. }
  destruct (send_open_outcome cfg (Some frame) w1 He Hn)
    as (msg & w3 & Hatt & _ & Hsend); [rewrite Hcool; reflexivity|].
  rewrite Hcool in Hatt. cbn [snd] in Hatt.
  rewrite (attach_or_warn_succeeds _ frame (boxed_image cfg self img) image_bytes)
    in Hatt by (cbn; assumption).
  injection Hatt as <- <-.
  cbn [network sessions w1 classified_world set_screen set_clock_reads set_heap]
    in Hsend.
  rewrite Hnet in Hsend. cbn zeta in Hsend.
  assert (Hcall : exists w4,
            on_motion_detected_callback cfg frame w1 = (Ret tt, w4)
            /\ (send_email_notification cfg (Some frame) w1).2 = w4).
  { unfold on_motion_detected_callback.
    rewrite bind_eq, notify_send_eq, Hsend. eexists. split; reflexivity. }
  destruct Hcall as (w4 & Hcall & Hw4). rewrite Hsend in Hw4. cbn [snd] in Hw4.
  rewrite bind_eq, Hcall, bind_eq, poll_quit_eq.
  eexists _, _, _. split; [reflexivity|]. subst w4. cbn. split; [eauto|].
  eexists _, _, _. reflexivity.
Qed.

(** A failed alert does not stop the loop.  Past the warm-up, with the
    callback of [main], both switches on and a notifier that has not sent
    yet: when a frame shows motion and the SMTP session raises at step [s],
    the iteration returns, with the control decided by the pending key alone;
    the session was attempted, no timestamp is recorded, so the next frame
    with motion tries again, and nothing is delivered unless the failing
    step is [quit]. *)
Theorem failed_alert_does_not_stop_the_loop
    (self : MotionDetector) (frame : loc) (img : image) (w : World)
    (s : smtp_step) :
  on_motion_detected self = Some (on_motion_detected_callback cfg) ->
  ~ frame_count self + 1 < 30 ->
  heap w !! frame = Some img ->
  motion_in cfg self img = true ->
  Config.EMAIL_ENABLED cfg = true ->
  Config.NOTIFICATION_ENABLED cfg = true ->
  last_notification_time (notifier w) = None ->
  network w (sessions w) = Some s ->
  exists self' w',
    run_iteration cfg self frame w
    = (Ret (self', if quit_requested w then Break else Continue), w')
    /\ sessions w' = S (sessions w)
    /\ last_notification_time (notifier w') = None
    /\ last (stdout w') = Some (error_line (SMTPException s))
    /\ (s <> Quit -> outbox w' = outbox w).
Proof.
  intros Hcb Hge Hf Hmotion He Hn Hlast Hnet.
  rewrite (run_iteration_classified_eq cfg self frame img w Hge Hf).
  rewrite Hcb, Hmotion.
  set (w1 := classified_world cfg self frame img w).
  assert (Hcool : _is_cooldown_active cfg w1 = (Ret false, w1)).
  { rewrite cooldown_eq. cbn [notifier w1 classified_world set_screen
      set_clock_reads set_heap]. rewrite Hlast. reflexivity. }
  destruct (send_open_outcome cfg (Some frame) w1 He Hn)
    as (msg & w3 & _ & (Hn3 & Ho3 & _ & _ & _ & _ & _) & Hsend);
    [rewrite Hcool; reflexivity|].
  cbn [network sessions outbox notifier w1 classified_world set_screen
       set_clock_reads set_heap] in Hsend, Hn3, Ho3.
  rewrite Hnet in Hsend. cbn zeta in Hsend.
  assert (Hcall : exists w4,
            on_motion_detected_callback cfg frame w1 = (Ret tt, w4)
            /\ (send_email_notification cfg (Some frame) w1).2 = w4).
  { unfold on_motion_detected_callback.
    rewrite bind_eq, notify_send_eq.
    destruct (send_email_notification cfg (Some frame) w1) as [[b|e] w4] eqn:Hs4.
    - eexists. split; reflexivity.
    - destruct s; discriminate Hsend. }
  destruct Hcall as (w4 & Hcall & Hw4).
  rewrite bind_eq, Hcall, bind_eq, poll_quit_eq.
  assert (Hk4 : keys w4 = keys w).
  { pose proof (main_callback_keeps_keys frame w1) as Hk.
    rewrite Hcall in Hk. exact Hk. }
  eexists _, _. split.
  { unfold quit_requested. rewrite Hk4. reflexivity. }
  subst w4. rewrite Hsend.
  destruct s; cbn; rewrite ?last_snoc, ?Hn3, ?Ho3, ?Hlast;
    repeat split; auto; try congruence.
Qed.

End MainProperties.

(** ** The further properties on sample inputs *)

Lemma first_notification_is_sent_witness :
  (send_email_notification sample_config None empty_world).1 = Ret true.
Proof.
  apply (first_notification_is_sent sample_config None empty_world);
    reflexivity.
Defined.

(** Thirty seconds after an alert at time 0, with a cooldown of 60. *)
Lemma cooldown_active_iff_witness :
  (_is_cooldown_active sample_config
     (sample_world ∅ (fun _ => None) (Some 0) (30 * second))).1 = Ret true.
Proof.
  assert (Hrange : cooldown_compares_exactly sample_config)
    by (unfold cooldown_compares_exactly; cbn; lia).
  destruct (cooldown_active_iff sample_config
              (sample_world ∅ (fun _ => None) (Some 0) (30 * second)) 0
              Hrange eq_refl)
    as (Hactive & _).
  apply Hactive. reflexivity.
Defined.

Lemma second_call_within_cooldown_is_suppressed_witness :
  let r1 := send_email_notification sample_config None empty_world in
  send_email_notification sample_config None r1.2
  = (Ret false, set_clock_reads 4 r1.2).
Proof.
  apply (second_call_within_cooldown_is_suppressed sample_config None None
           empty_world 2);
    [unfold cooldown_compares_exactly; cbn; lia
    | vm_compute; reflexivity .. | reflexivity].
Defined.

Lemma delivery_depends_on_failing_step_witness :
  let r := send_email_notification sample_config None
             (sample_world ∅ (fun _ => Some Quit) None 0) in
  r.1 = Ret false /\ exists msg, outbox r.2 = [msg].
Proof.
  intros r.
  destruct (delivery_depends_on_failing_step sample_config None
              (sample_world ∅ (fun _ => Some Quit) None 0) Quit)
    as (Hr & _ & Hquit & _); try reflexivity.
  split; [exact Hr | exact (Hquit eq_refl)].
Defined.

Lemma encoded_frame_is_attached_witness :
  (send_email_notification sample_config (Some 1%positive) intruder_world).1
  = Ret true.
Proof.
  apply (encoded_frame_is_attached (cv := Raster.cv) sample_config 1%positive
           Raster.intruder_scene (replicate 30 Byte.xff) intruder_world);
    reflexivity.
Defined.

Lemma thirtieth_frame_is_classified_witness :
  exists self' c w',
    run_iteration sample_config thirtieth_detector 1%positive intruder_world
    = (Ret (self', c), w')
    /\ clock_reads w' = 1%nat.
Proof.
  destruct (thirtieth_frame_is_classified (cv := Raster.cv) sample_config thirtieth_detector
              1%positive Raster.intruder_scene intruder_world)
    as (self' & c & w' & Heq & _ & Hclock);
    [reflexivity | reflexivity | exact intruder_world_frame |].
  exists self', c, w'. split; [exact Heq | exact Hclock].
Defined.

Lemma callback_gets_the_boxed_input_frame_witness :
  heap (classified_world sample_config alerting_detector 1%positive
          Raster.intruder_scene intruder_world) !! 1%positive
  = Some (boxed_image sample_config alerting_detector Raster.intruder_scene).
Proof.
  apply (callback_gets_the_boxed_input_frame (cv := Raster.cv) sample_config alerting_detector
           1%positive Raster.intruder_scene intruder_world
           (on_motion_detected_callback sample_config));
    [cbn; lia | exact intruder_world_frame | reflexivity].
Defined.




Lemma main_rejects_invalid_configuration_witness :
  (main blank_config two_frames intruder_world).1 = Ret (Exit 1).
Proof.
  rewrite (main_rejects_invalid_configuration blank_config
             two_frames intruder_world); [reflexivity|].
  discriminate.
Defined.

Lemma main_without_camera_witness :
  (main sample_config two_frames no_camera_world).1
  = Ret (Exit 1).
Proof.
  rewrite (main_without_camera sample_config two_frames
             no_camera_world); reflexivity.
Defined.

Lemma main_survives_notification_failures_witness :
  (main sample_config two_frames
     (sample_world ∅ (fun _ => Some Connect) None 0)).1 = Ret Returned.
Proof.
  apply (main_survives_notification_failures sample_config
           two_frames
           (sample_world ∅ (fun _ => Some Connect) None 0)); reflexivity.
Defined.

Lemma main_short_feed_sends_nothing_witness :
  outbox (main sample_config two_frames
            empty_world).2 = [].
Proof.
  apply (main_short_feed_sends_nothing sample_config
           two_frames empty_world);
    [reflexivity | reflexivity | cbn; lia].
Defined.

Lemma alert_carries_the_boxed_frame_witness :
  exists self' c w' subject body filename,
    run_iteration sample_config alerting_detector 1%positive intruder_world
    = (Ret (self', c), w')
    /\ outbox w'
       = [mk_message "camera@example.org" "owner@example.org" subject
            [MIMEText body "plain"; MIMEImage (replicate 30 Byte.xff) filename]].
Proof.
  destruct (alert_carries_the_boxed_frame (cv := Raster.cv) sample_config alerting_detector
              1%positive Raster.intruder_scene (replicate 30 Byte.xff)
              intruder_world)
    as (self' & c & w' & Heq & _ & subject & body & filename & Hout);
    try reflexivity; try exact intruder_world_frame; try (cbn; lia).
  exists self', c, w', subject, body, filename. split; [exact Heq | exact Hout].
Defined.

(** ** The corrected claims on sample inputs *)

(** C1 as stated fails on the thirtieth frame.  A detector started by
    [main] has counted no frame and its subtractor is new; after a feed of
    thirty frames the subtractor holds the thirtieth: that frame, the last of
    the thirty initial ones, was classified. *)
Lemma thirtieth_frame_is_not_warm_up :
  length thirty_frames = 30%nat
  /\ thirty_frames !! 29%nat = Some Raster.intruder_scene
  /\ frame_count (started_detector sample_config) = 0
  /\ background_subtractor (started_detector sample_config) = None
  /\ exists self' w',
       run_loop sample_config thirty_frames (started_detector sample_config)
         empty_world = (Ret self', w')
       /\ background_subtractor self' = Some Raster.intruder_scene.
Proof.
  split; [reflexivity|]. split; [reflexivity|]. split; [reflexivity|].
  split; [reflexivity|].
  destruct (run_loop_reaches_the_thirtieth (cv := Raster.cv) sample_config
              (replicate 29 Raster.empty_scene) Raster.intruder_scene
              (started_detector sample_config) empty_world)
    as (self' & w' & Heq & Hbs);
    [ reflexivity | reflexivity
    | apply main_callback_returns | apply main_callback_keeps_keys
    | reflexivity |].
  exists self', w'. split; [exact Heq|]. rewrite Hbs. reflexivity.
Qed.

(** C8 as stated fails under the default configuration: the configured
    index is 0, and the detector asked for camera 0 does use camera 0. *)
Lemma camera_zero_is_used_with_the_default_index :
  Config.CAMERA_INDEX sample_config = 0
  /\ camera_index
       (MotionDetector_init (cv := Raster.cv) sample_config (Some 0) None) = 0.
Proof. split; reflexivity. Qed.

Lemma failed_alert_does_not_stop_the_loop_witness :
  exists self' w',
    run_iteration sample_config alerting_detector 1%positive
      refusing_server_world = (Ret (self', Continue), w')
    /\ sessions w' = 1%nat
    /\ outbox w' = [].
Proof.
  destruct (failed_alert_does_not_stop_the_loop (cv := Raster.cv) sample_config
              alerting_detector 1%positive Raster.intruder_scene
              refusing_server_world Login)
    as (self' & w' & Heq & Hs & _ & _ & Hout);
    try reflexivity; try (cbn; lia).
  exists self', w'. split; [exact Heq|]. split; [exact Hs|].
  apply Hout. discriminate.
Defined.
